(** * Mood analytics of the vyze dashboard (src/dashboard/views.py, src/dashboard/api.py)

    Shallow embedding of the analytics helpers: trend analysis, mood
    prediction, recommendations, streaks and achievements.

    Modelling conventions.
    - Python ints are [Z]; Python floats are modelled by exact rationals [Q]
      (the mood values are small integers, so sums, counts and the compared
      thresholds are exact; only the quotients are idealised).
    - Python's true division [/] raises [ZeroDivisionError] on a zero divisor;
      it is [true_div] in the [PyResult] error monad.
    - A Django queryset is the list of rows it yields, in its order.
    - A Python dict literal is an association list of its keys and values, in
      the order of the literal. *)

From Stdlib Require Import ZArith QArith Qround List String Bool Lia Lqa Sorted.
Import ListNotations.

Open Scope string_scope.

(** ** Python runtime fragments *)

Inductive PyResult (A : Type) : Type :=
| Ok (a : A)
| ZeroDivisionError.
Arguments Ok {A} a.
Arguments ZeroDivisionError {A}.

Definition py_bind {A B} (r : PyResult A) (k : A -> PyResult B) : PyResult B :=
  match r with
  | Ok a => k a
  | ZeroDivisionError => ZeroDivisionError
  end.

Notation "x <- r ;; k" := (py_bind r (fun x => k))
  (at level 61, r at next level, right associativity).

(** Python values stored in the result dicts. *)
#[warnings="-register-all"]
Inductive PyVal : Type :=
| VStr (s : string)
| VInt (z : Z)
| VFloat (q : Q)
| VList (l : list PyVal).

Definition PyDict := list (string * PyVal).

Fixpoint dict_get (d : PyDict) (k : string) : option PyVal :=
  match d with
  | [] => None
  | (k', v) :: d' => if String.eqb k k' then Some v else dict_get d' k
  end.

Definition dict_keys (d : PyDict) : list string := map fst d.

(** [a / b] on numbers. *)
Definition true_div (a b : Q) : PyResult Q :=
  if Qeq_bool b 0 then ZeroDivisionError else Ok (a / b).

(** [sum(l)] and [len(l)] on a list of ints. *)
Definition py_sum (l : list Z) : Z := fold_right Z.add 0%Z l.
Definition py_len {A} (l : list A) : Z := Z.of_nat (List.length l).

(** [range(n)]. *)
Definition py_range (n : nat) : list Z := map Z.of_nat (seq 0 n).

(** [l[:k]] and [l[k:]] for [0 <= k]. *)
Definition slice_to {A} (l : list A) (k : Z) : list A := firstn (Z.to_nat k) l.
Definition slice_from {A} (l : list A) (k : Z) : list A := skipn (Z.to_nat k) l.

(** [l.insert(i, x)] for [0 <= i]; past the end it appends. *)
Definition py_insert {A} (l : list A) (i : nat) (x : A) : list A :=
  app (firstn i l) (x :: skipn i l).

(** Strict comparison of rationals as a boolean. *)
Definition Qlt_bool (a b : Q) : bool := negb (Qle_bool b a).

(** Round half to even of a rational to an integer. *)
Definition round_half_even (q : Q) : Z :=
  let f := Qfloor q in
  let d := q - inject_Z f in
  if Qlt_bool d (1 # 2) then f
  else if Qlt_bool (1 # 2) d then (f + 1)%Z
  else if Z.even f then f else (f + 1)%Z.

(** [round(q, 1)], on the exact value (Python rounds the nearest double, so
    ties such as 0.35 can go the other way there). *)
Definition round1 (q : Q) : Q := inject_Z (round_half_even (q * 10)) / 10.

(** [max(a, b)] and [min(a, b)] on numbers (values only). *)
Definition py_max (a b : Q) : Q := if Qlt_bool a b then b else a.
Definition py_min (a b : Q) : Q := if Qlt_bool b a then b else a.

(** ** The store *)

(** A [MoodEntry] row; [date] is the calendar day of its timestamp. *)
Record MoodEntry := mkMoodEntry {
  me_user : nat;
  me_mood : Z;
  me_date : Z
}.

(** A [Journal] row, only its owner matters here. *)
Record Journal := mkJournal { j_user : nat }.

Record Achievement := mkAchievement {
  a_user : nat;
  a_title : string;
  a_description : string;
  a_points : Z
}.

(** ** Trend analysis, dashboard variant (views.analyze_mood_trends)

    [recent_moods] is the queryset of the user's entries of the last 30 days
    ordered by date (the mood values of its rows). *)

Module Views.

(** Lines 510-527: the trend slope. *)
Definition trend_slope (recent_moods : list Z) (avg_mood : Q) : PyResult Q :=
  if (3 <=? py_len recent_moods)%Z then
    let y_values := recent_moods in
    if (1 <? py_len recent_moods)%Z then
      let first_half := slice_to y_values (py_len y_values / 2) in
      let second_half := slice_from y_values (py_len y_values / 2) in
      first_avg <- (match first_half with
                    | [] => Ok avg_mood
                    | _ => true_div (inject_Z (py_sum first_half))
                                    (inject_Z (py_len first_half))
                    end) ;;
      second_avg <- (match second_half with
                     | [] => Ok avg_mood
                     | _ => true_div (inject_Z (py_sum second_half))
                                     (inject_Z (py_len second_half))
                     end) ;;
      Ok (second_avg - first_avg)
    else Ok 0
  else Ok 0.

Definition trend_of_slope (trend_slope : Q) : string * string * list string :=
  if Qlt_bool (1 # 2) trend_slope then
    ("improving",
     "Your mood has been trending upward! Keep up the great work.",
     ["Continue your current wellness routine";
      "Consider sharing your progress with your doctor";
      "Try new activities that bring you joy"])
  else if Qlt_bool trend_slope (-1 # 2) then
    ("declining",
     "Your mood has been trending downward. Consider reaching out for support.",
     ["Practice deep breathing exercises";
      "Reach out to your assigned doctor";
      "Try mindfulness activities";
      "Consider professional counseling if needed"])
  else
    ("stable",
     "Your mood has been relatively stable. This is a good foundation to build upon.",
     ["Maintain your current routine";
      "Try new wellness activities";
      "Continue journaling your thoughts";
      "Stay connected with your support network"]).

Definition mood_level_of (avg_mood : Q) : string * string :=
  if Qle_bool 8 avg_mood then
    ("excellent", "You're doing exceptionally well! Consider how you can maintain this positive state.")
  else if Qle_bool 6 avg_mood then
    ("good", "You're in a good place. Small improvements can make a big difference.")
  else if Qle_bool 4 avg_mood then
    ("moderate", "There's room for improvement. Focus on self-care and professional support.")
  else
    ("needs_attention", "Consider reaching out to mental health professionals for additional support.").

Definition no_data_result : PyDict :=
  [("trend", VStr "neutral");
   ("message", VStr "Start logging your mood to get personalized insights!");
   ("recommendations", VList (map VStr ["Log your daily mood"; "Write in your journal";
                                        "Try breathing exercises"]))].

Definition analyze_mood_trends (recent_moods : list Z) : PyResult PyDict :=
  match recent_moods with
  | [] => Ok no_data_result
  | _ =>
    avg_mood <- true_div (inject_Z (py_sum recent_moods)) (inject_Z (py_len recent_moods)) ;;
    slope <- trend_slope recent_moods avg_mood ;;
    let '(trend, message, recommendations) := trend_of_slope slope in
    let '(mood_level, additional_message) := mood_level_of avg_mood in
    Ok [("trend", VStr trend);
        ("mood_level", VStr mood_level);
        ("avg_mood", VFloat (round1 avg_mood));
        ("message", VStr message);
        ("additional_message", VStr additional_message);
        ("recommendations", VList (map VStr recommendations));
        ("data_points", VInt (py_len recent_moods))]
  end.

End Views.

(** ** Trend analysis, JSON API variant (api.analyze_mood_trends) *)

Module Api.

Definition trend_slope (recent_moods : list Z) (avg_mood : Q) : PyResult Q :=
  if (3 <=? py_len recent_moods)%Z then
    let first_half := slice_to recent_moods (py_len recent_moods / 2) in
    let second_half := slice_from recent_moods (py_len recent_moods / 2) in
    first_avg <- (match first_half with
                  | [] => Ok avg_mood
                  | _ => true_div (inject_Z (py_sum first_half))
                                  (inject_Z (py_len first_half))
                  end) ;;
    second_avg <- (match second_half with
                   | [] => Ok avg_mood
                   | _ => true_div (inject_Z (py_sum second_half))
                                   (inject_Z (py_len second_half))
                   end) ;;
    Ok (second_avg - first_avg)
  else Ok 0.

Definition trend_of_slope (trend_slope : Q) : string * string :=
  if Qlt_bool (1 # 2) trend_slope then
    ("improving", "Your mood has been trending upward! Keep up the great work.")
  else if Qlt_bool trend_slope (-1 # 2) then
    ("declining", "Your mood has been trending downward. Consider reaching out for support.")
  else
    ("stable", "Your mood has been relatively stable. This is a good foundation to build upon.").

Definition no_data_result : PyDict :=
  [("trend", VStr "neutral");
   ("message", VStr "Start logging your mood to get personalized insights!");
   ("recommendations", VList (map VStr ["Log your daily mood"; "Write in your journal";
                                        "Try breathing exercises"]))].

Definition analyze_mood_trends (recent_moods : list Z) : PyResult PyDict :=
  match recent_moods with
  | [] => Ok no_data_result
  | _ =>
    avg_mood <- true_div (inject_Z (py_sum recent_moods)) (inject_Z (py_len recent_moods)) ;;
    slope <- trend_slope recent_moods avg_mood ;;
    let '(trend, message) := trend_of_slope slope in
    Ok [("trend", VStr trend);
        ("avg_mood", VFloat (round1 avg_mood));
        ("message", VStr message);
        ("data_points", VInt (py_len recent_moods))]
  end.

End Api.

(** ** Recommendation engine (views.generate_ai_recommendations)

    [journal_count] is [Journal.objects.filter(user=user).count()]. *)

Definition urgent_support_1 : string :=
  "⚠️ URGENT: Your mood trend suggests you may need additional support".
Definition urgent_support_2 : string :=
  "Consider contacting a healthcare provider soon".

Definition bucket_recommendations (avg_mood : Q) : list string :=
  if Qlt_bool avg_mood 4 then
    ["Consider speaking with a mental health professional";
     "Try daily gratitude journaling to shift perspective";
     "Practice deep breathing exercises for 5 minutes daily";
     "Reach out to trusted friends or family for support"]
  else if Qlt_bool avg_mood 6 then
    ["Continue with your current wellness activities";
     "Try adding mindfulness meditation to your routine";
     "Consider light exercise like walking";
     "Track your sleep patterns for better rest"]
  else
    ["Great job maintaining positive mental health!";
     "Consider helping others by sharing your coping strategies";
     "Try advanced mindfulness techniques";
     "Continue your current healthy habits"].

Definition generate_ai_recommendations (avg_mood : Q) (trend : string) (journal_count : Z)
  : list string :=
  let recommendations := app [] (bucket_recommendations avg_mood) in
  let recommendations :=
    if String.eqb trend "declining" then
      py_insert (py_insert recommendations 0 urgent_support_1) 1 urgent_support_2
    else recommendations in
  let recommendations :=
    if (journal_count <? 5)%Z then
      app recommendations ["Try journaling more frequently to process your emotions"]
    else recommendations in
  let game_sessions := 0%Z in
  let recommendations :=
    if (game_sessions <? 3)%Z then
      app recommendations ["Engage with our wellness games for stress relief"]
    else recommendations in
  firstn 5 recommendations.

(** ** Single-value predictor (views.predict_next_mood) *)

Definition sum_products (xs ys : list Z) : Z :=
  py_sum (map (fun '(x, y) => x * y)%Z (combine xs ys)).

(** The OLS divisor [n * sum_xx - sum_x * sum_x] over [x_values = range(n)]. *)
Definition ols_denominator (n : nat) : Z :=
  let x_values := py_range n in
  let sum_x := py_sum x_values in
  let sum_xx := py_sum (map (fun x => x * x)%Z x_values) in
  (Z.of_nat n * sum_xx - sum_x * sum_x)%Z.

Definition predict_next_mood (mood_values : list Z) : PyResult Q :=
  if (py_len mood_values <? 3)%Z then
    true_div (inject_Z (py_sum mood_values)) (inject_Z (py_len mood_values))
  else
    let n := List.length mood_values in
    let x_values := py_range n in
    let y_values := mood_values in
    let sum_x := py_sum x_values in
    let sum_y := py_sum y_values in
    let sum_xy := sum_products x_values y_values in
    let sum_xx := py_sum (map (fun x => x * x)%Z x_values) in
    slope <- true_div (inject_Z (Z.of_nat n * sum_xy - sum_x * sum_y)%Z)
                      (inject_Z (Z.of_nat n * sum_xx - sum_x * sum_x)%Z) ;;
    intercept <- true_div (inject_Z sum_y - slope * inject_Z sum_x) (inject_Z (Z.of_nat n)) ;;
    let next_x := inject_Z (Z.of_nat n) in
    let predicted := slope * next_x + intercept in
    Ok (py_max 1 (py_min 10 (round1 predicted))).

(** ** Prediction confidence (views.calculate_prediction_confidence)

    [std_dev = variance ** 0.5] is compared with 1 and 2; as the square root
    is monotone this is the comparison of [variance] with 1 and 4. *)

Definition calculate_prediction_confidence (mood_values : list Z) : PyResult string :=
  if (py_len mood_values <? 5)%Z then Ok "Low"
  else
    mean <- true_div (inject_Z (py_sum mood_values)) (inject_Z (py_len mood_values)) ;;
    let sq := fold_right Qplus 0 (map (fun x => (inject_Z x - mean) * (inject_Z x - mean))
                                      mood_values) in
    variance <- true_div sq (inject_Z (py_len mood_values)) ;;
    if Qlt_bool variance 1 then Ok "High"
    else if Qlt_bool variance 4 then Ok "Medium"
    else Ok "Low".

(** ** Predictive view (views.ai_mood_prediction)

    [recent_moods] is [MoodEntry.objects.filter(user=user).order_by('-date')[:14]]:
    for a history given oldest first, the last 14 values newest first. *)

Definition ai_recent_moods (history : list Z) : list Z := firstn 14 (rev history).

Definition ai_trend_of (first_half second_half : Q) : string * string :=
  if Qlt_bool first_half second_half then
    ("improving", "Your mood has been trending upward! Keep up the great work.")
  else if Qlt_bool second_half first_half then
    ("declining", "Your mood has been trending downward. Consider reaching out for support.")
  else
    ("stable", "Your mood has been relatively stable. This consistency is positive.").

Definition ai_mood_prediction (recent_moods : list Z) (journal_count : Z)
  : PyResult (option PyDict) :=
  if (7 <=? py_len recent_moods)%Z then
    let mood_values := recent_moods in
    avg_mood <- true_div (inject_Z (py_sum mood_values)) (inject_Z (py_len mood_values)) ;;
    if (7 <=? py_len mood_values)%Z then
      let h := (py_len mood_values / 2)%Z in
      first_half <- true_div (inject_Z (py_sum (slice_to mood_values h)))
                             (inject_Z (py_len (slice_to mood_values h))) ;;
      second_half <- true_div (inject_Z (py_sum (slice_from mood_values h)))
                              (inject_Z (py_len (slice_from mood_values h))) ;;
      let '(trend, trend_message) := ai_trend_of first_half second_half in
      let recommendations := generate_ai_recommendations avg_mood trend journal_count in
      predicted_mood <- predict_next_mood mood_values ;;
      confidence <- calculate_prediction_confidence mood_values ;;
      Ok (Some [("avg_mood", VFloat (round1 avg_mood));
                ("trend", VStr trend);
                ("trend_message", VStr trend_message);
                ("recommendations", VList (map VStr recommendations));
                ("data_points", VInt (py_len mood_values));
                ("predicted_mood", VFloat predicted_mood);
                ("confidence", VStr confidence)])
    else Ok None
  else Ok None.

(** ** Weekly forecaster (views.predict_next_week_mood) *)

(** [order_by('date__date')]: a stable insertion sort on the day. *)
Fixpoint insert_by_date (e : MoodEntry) (l : list MoodEntry) : list MoodEntry :=
  match l with
  | [] => [e]
  | e' :: l' => if (me_date e' <=? me_date e)%Z then e' :: insert_by_date e l' else e :: l
  end.

Definition order_by_date (l : list MoodEntry) : list MoodEntry :=
  fold_left (fun acc e => insert_by_date e acc) l [].

Definition in_window (user : nat) (start_date end_date : Z) (e : MoodEntry) : bool :=
  Nat.eqb (me_user e) user && (start_date <=? me_date e)%Z && (me_date e <=? end_date)%Z.

Definition week_recent_moods (entries : list MoodEntry) (user : nat) (today : Z)
  : list MoodEntry :=
  let end_date := today in
  let start_date := (end_date - 14)%Z in
  order_by_date (filter (in_window user start_date end_date) entries).

Definition qsum (l : list Q) : Q := fold_right Qplus 0 l.

Definition no_forecast_result : PyDict :=
  [("prediction", VStr "neutral");
   ("confidence", VStr "low");
   ("message", VStr "Need more mood data for accurate predictions");
   ("weekly_forecast", VList (map VInt [5; 5; 5; 5; 5; 5; 5]%Z))].

Definition regression_slope (mood_values : list Z) (avg_mood : Q) : PyResult Q :=
  if (1 <? py_len mood_values)%Z then
    let x_values := py_range (List.length mood_values) in
    mean_x <- true_div (inject_Z (py_sum x_values)) (inject_Z (py_len x_values)) ;;
    true_div
      (qsum (map (fun '(x, y) => (inject_Z x - mean_x) * (inject_Z y - avg_mood))
                 (combine x_values mood_values)))
      (qsum (map (fun x => (inject_Z x - mean_x) * (inject_Z x - mean_x)) x_values))
  else Ok 0.

Definition forecast_day (base_mood : Z) (slope : Q) (i : Z) : Q :=
  round1 (py_min 10 (py_max 1 (inject_Z base_mood + slope * inject_Z (i + 1) * (1 # 10)))).

Definition predict_next_week_mood (entries : list MoodEntry) (user : nat) (today : Z)
  : PyResult PyDict :=
  match week_recent_moods entries user today with
  | [] => Ok no_forecast_result
  | recent_moods =>
    let mood_values := map me_mood recent_moods in
    avg_mood <- true_div (inject_Z (py_sum mood_values)) (inject_Z (py_len mood_values)) ;;
    slope <- regression_slope mood_values avg_mood ;;
    let base_mood := match mood_values with [] => 5%Z | _ => last mood_values 5%Z end in
    let weekly_forecast := map (forecast_day base_mood slope) (py_range 7) in
    avg_predicted <- true_div (qsum weekly_forecast) (inject_Z (py_len weekly_forecast)) ;;
    let '(prediction, message) :=
      if Qle_bool 7 avg_predicted then
        ("positive", "Your mood trend suggests a positive week ahead!")
      else if Qle_bool 4 avg_predicted then
        ("stable", "Your mood is likely to remain stable this week.")
      else
        ("challenging", "You might face some challenging days. Consider reaching out for support.")
    in
    let confidence :=
      if (7 <=? py_len mood_values)%Z then "high"
      else if (3 <=? py_len mood_values)%Z then "medium" else "low" in
    Ok [("prediction", VStr prediction);
        ("confidence", VStr confidence);
        ("message", VStr message);
        ("weekly_forecast", VList (map VFloat weekly_forecast));
        ("avg_predicted", VFloat (round1 avg_predicted))]
  end.

(** ** Streak calculator (views.calculate_streak; api.calculate_streak is the same code)

    [MoodEntry.objects.filter(user=user, date__date=check_date).exists()]. *)

Definition has_entry_on (entries : list MoodEntry) (user : nat) (d : Z) : bool :=
  existsb (fun e => Nat.eqb (me_user e) user && Z.eqb (me_date e) d) entries.

(** The [while True] loop, run for at most [fuel] iterations. *)
Fixpoint streak_loop (fuel : nat) (entries : list MoodEntry) (user : nat)
    (check_date streak : Z) : Z :=
  match fuel with
  | O => streak
  | S fuel' =>
    if has_entry_on entries user check_date
    then streak_loop fuel' entries user (check_date - 1) (streak + 1)
    else streak
  end.

(** The loop takes the [break] within [length entries + 1] iterations
    (proved below as [streak_loop_fuel]). *)
Definition calculate_streak (entries : list MoodEntry) (user : nat) (today : Z) : Z :=
  streak_loop (S (List.length entries)) entries user today 0.

(** ** Achievement rule engine (views.check_achievements) *)

Record Store := mkStore {
  mood_entries : list MoodEntry;
  achievements : list Achievement
}.

Definition achievement_exists (st : Store) (user : nat) (title : string) : bool :=
  existsb (fun a => Nat.eqb (a_user a) user && String.eqb (a_title a) title)
          (achievements st).

Definition create_achievement (st : Store) (a : Achievement) : Store :=
  mkStore (mood_entries st) (app (achievements st) [a]).

Definition check_achievements (user : nat) (st : Store) : Store :=
  let mood_count := py_len (filter (fun e => Nat.eqb (me_user e) user) (mood_entries st)) in
  let st :=
    if (7 <=? mood_count)%Z && negb (achievement_exists st user "Week Warrior")
    then create_achievement st
           (mkAchievement user "Week Warrior" "Logged mood for 7 days!" 10)
    else st in
  if (30 <=? mood_count)%Z && negb (achievement_exists st user "Monthly Master")
  then create_achievement st
         (mkAchievement user "Monthly Master" "Logged mood for 30 days!" 50)
  else st.

(** Number of achievements of [user] titled [title]. *)
Definition count_achievements (st : Store) (user : nat) (title : string) : nat :=
  List.length (filter (fun a => Nat.eqb (a_user a) user && String.eqb (a_title a) title)
                      (achievements st)).

(** Sequential use of the store: [log_mood] saves an entry and then runs
    [check_achievements] for its user; the rule check may also run alone. *)
Inductive StoreOp : Type :=
| LogMood (e : MoodEntry)
| RunCheck (user : nat).

Definition apply_op (st : Store) (op : StoreOp) : Store :=
  match op with
  | LogMood e =>
      check_achievements (me_user e)
        (mkStore (app (mood_entries st) [e]) (achievements st))
  | RunCheck user => check_achievements user st
  end.

Definition run_ops (st : Store) (ops : list StoreOp) : Store := fold_left apply_op ops st.

(** At most one achievement per (user, title). *)
Definition at_most_one_per_title (st : Store) : Prop :=
  forall user title, (count_achievements st user title <= 1)%nat.

(** ** Access decorators (accounts/decorators.py) *)

(** The part of [request.user] the decorators read. *)
Record RequestUser := mkRequestUser {
  ru_is_authenticated : bool;
  ru_role : string
}.

(** What a decorated view returns: a redirect carrying the flashed error
    message and its target, or the wrapped view's own response. *)
Inductive Decorated (R : Type) : Type :=
| Redirect (error_message target : string)
| Ran (r : R).
Arguments Redirect {R} error_message target.
Arguments Ran {R} r.

Definition doctor_required {R} (view_func : RequestUser -> R) (user : RequestUser) : Decorated R :=
  if negb (ru_is_authenticated user) then
    Redirect "You must be logged in to access this page." "login"
  else if negb (String.eqb (ru_role user) "doctor") then
    Redirect "Access denied. This page is only available to doctors." "patient_dashboard"
  else Ran (view_func user).

Definition patient_required {R} (view_func : RequestUser -> R) (user : RequestUser) : Decorated R :=
  if negb (ru_is_authenticated user) then
    Redirect "You must be logged in to access this page." "login"
  else if negb (String.eqb (ru_role user) "patient") then
    Redirect "Access denied. This page is only available to patients." "doctor_dashboard"
  else Ran (view_func user).

(** ** Users, assignments and notes (accounts/models.py, dashboard/models.py) *)

Record UserRow := mkUser {
  usr_id : nat;
  usr_username : string;
  usr_role : string;
  usr_patient_id : option string
}.

(** [DoctorPatientAssignment]; [unique_together = ['doctor', 'patient']]. *)
Record AssignmentRow := mkAssignment {
  as_doctor : nat;
  as_patient : nat;
  as_active : bool
}.

Record NoteRow := mkNote {
  n_patient : nat;
  n_doctor : nat;
  n_note : string;
  n_is_visible_to_patient : bool
}.

Record ClinicDB := mkClinicDB {
  db_users : list UserRow;
  db_assignments : list AssignmentRow;
  db_notes : list NoteRow
}.

(** [Model.objects.get(...)]. *)
Inductive GetResult (A : Type) : Type :=
| Found (a : A)
| DoesNotExist
| MultipleObjectsReturned.
Arguments Found {A} a.
Arguments DoesNotExist {A}.
Arguments MultipleObjectsReturned {A}.

Definition orm_get {A} (rows : list A) : GetResult A :=
  match rows with
  | [] => DoesNotExist
  | [a] => Found a
  | _ => MultipleObjectsReturned
  end.

Definition option_str_eqb (o : option string) (s : string) : bool :=
  match o with Some s' => String.eqb s' s | None => false end.

(** [User.objects.get(patient_id=patient_id, role='patient')]. *)
Definition get_patient_by_patient_id (db : ClinicDB) (patient_id : string) : GetResult UserRow :=
  orm_get (filter (fun u => option_str_eqb (usr_patient_id u) patient_id &&
                            String.eqb (usr_role u) "patient") (db_users db)).

(** [User.objects.get(id=patient_id, role='patient')]. *)
Definition get_patient_by_id (db : ClinicDB) (patient_id : nat) : GetResult UserRow :=
  orm_get (filter (fun u => Nat.eqb (usr_id u) patient_id && String.eqb (usr_role u) "patient")
                  (db_users db)).

(** [DoctorPatientAssignment.objects.filter(doctor=doctor, patient=patient, is_active=True).exists()]. *)
Definition active_assignment_exists (db : ClinicDB) (doctor patient : nat) : bool :=
  existsb (fun a => Nat.eqb (as_doctor a) doctor && Nat.eqb (as_patient a) patient && as_active a)
          (db_assignments db).

Definition assignment_pair_exists (db : ClinicDB) (doctor patient : nat) : bool :=
  existsb (fun a => Nat.eqb (as_doctor a) doctor && Nat.eqb (as_patient a) patient)
          (db_assignments db).

(** [DoctorPatientAssignment.objects.create(doctor=..., patient=...)]: the
    row is active by default; the [unique_together] constraint makes the
    insert fail when the pair already has a row, active or not. *)
Definition create_assignment (db : ClinicDB) (doctor patient : nat) : option ClinicDB :=
  if assignment_pair_exists db doctor patient then None
  else Some (mkClinicDB (db_users db) (app (db_assignments db) [mkAssignment doctor patient true])
                        (db_notes db)).

(** Outcome of a request handler that touches the store: a response (its
    HTTP status, the text of its error, message or flashed message, the
    resulting store), or an exception that escapes the handler. *)
Inductive Outcome : Type :=
| Respond (status : Z) (text : string) (db : ClinicDB)
| RaiseIntegrityError
| RaiseMultipleObjectsReturned
| RaiseKeyError.

(** [api.assign_patient]; [patient_id] is the request's
    [request.data.get('patient_id', '').strip().upper()]. *)
Definition api_assign_patient (doctor : UserRow) (patient_id : string) (db : ClinicDB) : Outcome :=
  match get_patient_by_patient_id db patient_id with
  | DoesNotExist => Respond 404 ("No patient found with ID: " ++ patient_id) db
  | MultipleObjectsReturned => RaiseMultipleObjectsReturned
  | Found patient =>
    if active_assignment_exists db (usr_id doctor) (usr_id patient) then
      Respond 400 ("Patient " ++ usr_username patient ++ " is already assigned to you") db
    else
      match create_assignment db (usr_id doctor) (usr_id patient) with
      | None => RaiseIntegrityError
      | Some db' =>
        Respond 201 ("Successfully assigned patient " ++ usr_username patient ++
                     " (ID: " ++ patient_id ++ ")") db'
      end
  end.

(** [views.assign_patient]; the page is rendered (status 200) with the
    flashed message, none on a GET. Only [User.DoesNotExist] is caught. *)
Definition views_assign_patient (is_post : bool) (doctor : UserRow) (patient_id : string)
    (db : ClinicDB) : Outcome :=
  if negb is_post then Respond 200 "" db else
  match get_patient_by_patient_id db patient_id with
  | DoesNotExist => Respond 200 ("No patient found with ID: " ++ patient_id) db
  | MultipleObjectsReturned => RaiseMultipleObjectsReturned
  | Found patient =>
    if active_assignment_exists db (usr_id doctor) (usr_id patient) then
      Respond 200 ("Patient " ++ usr_username patient ++ " is already assigned to you.") db
    else
      match create_assignment db (usr_id doctor) (usr_id patient) with
      | None => RaiseIntegrityError
      | Some db' =>
        Respond 200 ("Successfully assigned patient " ++ usr_username patient ++
                     " (ID: " ++ patient_id ++ ").") db'
      end
  end.

(** [views.add_doctor_note] on a POST: [note] is [request.POST['note']]
    ([None] when the key is missing) and [is_visible_to_patient] is
    [request.POST.get('is_visible_to_patient', False)]; the patient comes
    from [get_object_or_404(User, id=patient_id, role='patient')]. *)
Definition add_doctor_note (doctor : UserRow) (patient_id : nat) (note : option string)
    (is_visible_to_patient : option string) (db : ClinicDB) : Outcome :=
  match get_patient_by_id db patient_id with
  | DoesNotExist => Respond 404 "" db
  | MultipleObjectsReturned => RaiseMultipleObjectsReturned
  | Found patient =>
    match note with
    | None => RaiseKeyError
    | Some note =>
      let is_visible := match is_visible_to_patient with
                        | Some v => String.eqb v "on"
                        | None => false
                        end in
      Respond 302 "Note added successfully!"
        (mkClinicDB (db_users db) (db_assignments db)
           (app (db_notes db) [mkNote (usr_id patient) (usr_id doctor) note is_visible]))
    end
  end.

(** The checks of [api.patient_details] (lines 271-288) before it reads the
    patient's data: an error response, or the patient to report on. *)
Inductive Gate : Type :=
| Deny (status : Z) (error : string)
| GateMultiple
| Proceed (patient : UserRow).

Definition patient_details_gate (doctor : UserRow) (patient_id : nat) (db : ClinicDB) : Gate :=
  match get_patient_by_id db patient_id with
  | DoesNotExist => Deny 404 "Patient not found"
  | MultipleObjectsReturned => GateMultiple
  | Found patient =>
    if negb (active_assignment_exists db (usr_id doctor) (usr_id patient))
    then Deny 403 "You are not assigned to this patient"
    else Proceed patient
  end.

(** [DoctorNoteViewSet.create_for_patient]; [serializer_valid] is
    [serializer.is_valid()] on the posted data, whose note text and
    visibility flag are [note] and [visible]. *)
Definition create_for_patient (user : UserRow) (patient_id : nat) (serializer_valid : bool)
    (note : string) (visible : bool) (db : ClinicDB) : Outcome :=
  if negb (String.eqb (usr_role user) "doctor") then Respond 403 "Only doctors can create notes" db
  else
    match get_patient_by_id db patient_id with
    | DoesNotExist => Respond 404 "Patient not found" db
    | MultipleObjectsReturned => RaiseMultipleObjectsReturned
    | Found patient =>
      if negb (active_assignment_exists db (usr_id user) (usr_id patient))
      then Respond 403 "You are not assigned to this patient" db
      else if serializer_valid then
        Respond 201 note
          (mkClinicDB (db_users db) (db_assignments db)
             (app (db_notes db) [mkNote (usr_id patient) (usr_id user) note visible]))
      else Respond 400 "invalid" db
    end.

(** [DoctorNoteViewSet.get_queryset]. *)
Definition note_queryset (user : UserRow) (db : ClinicDB) : list NoteRow :=
  if String.eqb (usr_role user) "doctor" then
    filter (fun n => Nat.eqb (n_doctor n) (usr_id user)) (db_notes db)
  else
    filter (fun n => Nat.eqb (n_patient n) (usr_id user) && n_is_visible_to_patient n) (db_notes db).

(** [MoodEntry.get_visible_doctors]: the doctors of the active assignments
    of the entry's user. *)
Definition get_visible_doctors (db : ClinicDB) (entry : MoodEntry) : list nat :=
  map as_doctor (filter (fun a => Nat.eqb (as_patient a) (me_user entry) && as_active a)
                        (db_assignments db)).

(** [User.objects.filter(assigned_doctors__doctor=doctor, assigned_doctors__is_active=True).distinct()]. *)
Definition assigned_patients (db : ClinicDB) (doctor : nat) : list UserRow :=
  filter (fun u => active_assignment_exists db doctor (usr_id u)) (db_users db).

(** [order_by('-date')]: a stable insertion sort, newest first. *)
Fixpoint insert_by_date_desc (e : MoodEntry) (l : list MoodEntry) : list MoodEntry :=
  match l with
  | [] => [e]
  | e' :: l' => if (me_date e <=? me_date e')%Z then e' :: insert_by_date_desc e l' else e :: l
  end.

Definition order_by_date_desc (l : list MoodEntry) : list MoodEntry :=
  fold_left (fun acc e => insert_by_date_desc e acc) l [].

(** [recent_entries] of [doctor_dashboard] (views.py 110-113; api.py 199-201):
    [MoodEntry.objects.filter(user__in=assigned_patients).order_by('-date')[:20]]. *)
Definition doctor_recent_entries (db : ClinicDB) (entries : list MoodEntry) (doctor : nat)
  : list MoodEntry :=
  let patients := assigned_patients db doctor in
  firstn 20 (order_by_date_desc
               (filter (fun e => existsb (fun u => Nat.eqb (usr_id u) (me_user e)) patients)
                       entries)).

(** ** Patient identifiers (User.generate_patient_id, User.save)

    [candidates] are the successive values of
    [str(uuid.uuid4())[:8].upper()]; [None] is the loop still running when
    the list is used up. *)
Fixpoint generate_patient_id (candidates : list string) (users : list UserRow) : option string :=
  match candidates with
  | [] => None
  | patient_id :: rest =>
    if existsb (fun u => option_str_eqb (usr_patient_id u) patient_id) users
    then generate_patient_id rest users
    else Some patient_id
  end.

Inductive SaveResult : Type :=
| Saved (users : list UserRow)
| SaveIntegrityError
| SaveLoopRunning.

(** [User.save] of a new row: the patient-id generation, then the insert,
    which the [unique=True] constraint on [patient_id] refuses when another
    row holds the same non-null value. *)
Definition save_new_user (candidates : list string) (users : list UserRow) (u : UserRow)
  : SaveResult :=
  let needs_id := String.eqb (usr_role u) "patient" &&
                  match usr_patient_id u with None => true | Some s => String.eqb s "" end in
  let u' := if needs_id then
              match generate_patient_id candidates users with
              | Some pid => Some (mkUser (usr_id u) (usr_username u) (usr_role u) (Some pid))
              | None => None
              end
            else Some u in
  match u' with
  | None => SaveLoopRunning
  | Some u' =>
    match usr_patient_id u' with
    | Some pid =>
      if existsb (fun v => option_str_eqb (usr_patient_id v) pid) users
      then SaveIntegrityError else Saved (app users [u'])
    | None => Saved (app users [u'])
    end
  end.

(** ** Statistics of the patient views *)

(** [int(q)]: truncation toward zero. *)
Definition py_int (q : Q) : Z :=
  if Qle_bool 0 q then Qfloor q else (- Qfloor (- q))%Z.

Definition user_moods (entries : list MoodEntry) (user : nat) : list Z :=
  map me_mood (filter (fun e => Nat.eqb (me_user e) user) entries).

(** [round(MoodEntry.objects.filter(user=user).aggregate(Avg('mood'))['mood__avg'] or 0, 1)]
    (views.py 146 and 264, api.py 181 and 312). *)
Definition stats_avg_mood (entries : list MoodEntry) (user : nat) : Q :=
  round1 (match user_moods entries user with
          | [] => 0
          | ms => inject_Z (py_sum ms) / inject_Z (py_len ms)
          end).

(** [int(avg_mood * 10)] (views.py 175 and 293, api.py 325). *)
Definition avg_mood_percentage (entries : list MoodEntry) (user : nat) : Z :=
  py_int (stats_avg_mood entries user * 10).

(** Distinct values in ascending order: the groups of
    [values(...).annotate(...).order_by(...)]. *)
Fixpoint insert_uniq (x : Z) (l : list Z) : list Z :=
  match l with
  | [] => [x]
  | y :: l' => if (x <? y)%Z then x :: l else if (x =? y)%Z then l else y :: insert_uniq x l'
  end.

Definition distinct_sorted (l : list Z) : list Z := fold_right insert_uniq [] l.

Definition count_z (l : list Z) (x : Z) : nat := List.length (filter (Z.eqb x) l).

(** [MoodEntry.objects.filter(user=user).values('mood').annotate(count=Count('id')).order_by('mood')]. *)
Definition mood_distribution (entries : list MoodEntry) (user : nat) : list (Z * nat) :=
  let ms := user_moods entries user in
  map (fun m => (m, count_z ms m)) (distinct_sorted ms).

(** [weekly_forecast_with_percentages] of [progress_analytics] (lines 296-300);
    [None] is the [TypeError] of [mood * 10] on a non-number. *)
Definition mood_percentage (v : PyVal) : option Z :=
  match v with
  | VInt z => Some (z * 10)%Z
  | VFloat q => Some (py_int (q * 10))
  | _ => None
  end.

Definition weekly_forecast_with_percentages (prediction : PyDict) : option (list (PyVal * option Z)) :=
  match dict_get prediction "weekly_forecast" with
  | Some (VList fc) => Some (map (fun mood => (mood, mood_percentage mood)) fc)
  | _ => None
  end.

(** ** The trend analyzer as the spec states it *)

(** [mean(l)]. *)
Definition mean (l : list Z) : Q := inject_Z (py_sum l) / inject_Z (py_len l).

(** The spec's slope: 0 below three points, otherwise the mean of the second
    half minus the mean of the first half, the first half being the first
    [floor(n/2)] values. *)
Definition claimed_slope (l : list Z) : Q :=
  if (List.length l <? 3)%nat then 0
  else mean (skipn (List.length l / 2) l) - mean (firstn (List.length l / 2) l).

(** The spec's thresholds: above 0.5 improving, below -0.5 declining. *)
Definition claimed_label (slope : Q) : string :=
  if Qlt_bool (1 # 2) slope then "improving"
  else if Qlt_bool slope (-1 # 2) then "declining"
  else "stable".

(** The label of [ai_mood_prediction]: the sign of the difference of the
    half means of its value list. *)
Definition ai_label (first_half second_half : Q) : string :=
  if Qlt_bool first_half second_half then "improving"
  else if Qlt_bool second_half first_half then "declining"
  else "stable".

(** ** Predicates used by the statements *)

Definition in_mood_range_q (q : Q) : Prop := 1 <= q <= 10.

(** A number of the result dicts lies in [[1, 10]]. *)
Definition in_mood_range (v : PyVal) : Prop :=
  match v with
  | VFloat q => in_mood_range_q q
  | VInt z => (1 <= z <= 10)%Z
  | _ => False
  end.

(** The recommendation list in the order the spec gives it: the two
    urgent-support messages first for a declining trend, then the mood
    bucket, then the appended messages; truncation to 5 happens last. *)
Definition spec_recommendation_pipeline (avg_mood : Q) (trend : string) (journal_count : Z)
  : list string :=
  app (if String.eqb trend "declining" then [urgent_support_1; urgent_support_2] else [])
      (app (bucket_recommendations avg_mood)
           (app (if (journal_count <? 5)%Z
                 then ["Try journaling more frequently to process your emotions"] else [])
                ["Engage with our wellness games for stress relief"])).

(** The non-null patient identifiers of the user table. *)
Definition patient_ids (users : list UserRow) : list string :=
  flat_map (fun u => match usr_patient_id u with Some p => [p] | None => [] end) users.

(** Number of mood entries of [user] in the store. *)
Definition user_count (st : Store) (user : nat) : Z :=
  py_len (filter (fun e => Nat.eqb (me_user e) user) (mood_entries st)).

(** Each user holds "Week Warrior" exactly when they have 7 entries or more,
    and "Monthly Master" exactly when they have 30 or more. *)
Definition tracks_counts (st : Store) : Prop :=
  at_most_one_per_title st /\
  forall user,
    achievement_exists st user "Week Warrior" = (7 <=? user_count st user)%Z /\
    achievement_exists st user "Monthly Master" = (30 <=? user_count st user)%Z.

(** * Properties *)

(** ** Arithmetic facts about the Python fragments *)

Lemma Qlt_bool_iff a b : Qlt_bool a b = true <-> a < b.
Proof.
  unfold Qlt_bool. rewrite negb_true_iff. split; intro H.
  - apply Qnot_le_lt. intro H'. apply Qle_bool_iff in H'. congruence.
  - destruct (Qle_bool b a) eqn:E; [|reflexivity].
    apply Qle_bool_iff in E. exfalso. exact (Qlt_not_le _ _ H E).
Qed.

Lemma Qlt_bool_false a b : Qlt_bool a b = false <-> b <= a.
Proof. unfold Qlt_bool. rewrite negb_false_iff. apply Qle_bool_iff. Qed.

Lemma true_div_nonzero a b : ~ b == 0 -> true_div a b = Ok (a / b).
Proof.
  intro H. unfold true_div.
  destruct (Qeq_bool b 0) eqn:E; [apply Qeq_bool_iff in E; contradiction | reflexivity].
Qed.

Lemma py_len_cons {A} (x : A) xs : py_len (x :: xs) = (1 + py_len xs)%Z.
Proof. unfold py_len. simpl List.length. lia. Qed.

Lemma py_len_nonneg {A} (xs : list A) : (0 <= py_len xs)%Z.
Proof. unfold py_len. lia. Qed.

Lemma len_nonzero {A} (xs : list A) : xs <> [] -> ~ inject_Z (py_len xs) == 0.
Proof.
  intros H E. destruct xs as [|x xs]; [contradiction|].
  rewrite py_len_cons in E. pose proof (py_len_nonneg xs).
  apply (proj1 (inject_Z_injective _ 0)) in E. lia.
Qed.

Lemma true_div_len {A} (xs : list A) a :
  xs <> [] -> true_div a (inject_Z (py_len xs)) = Ok (a / inject_Z (py_len xs)).
Proof. intro H. apply true_div_nonzero, len_nonzero, H. Qed.

Lemma round_half_even_lower (a : Z) q : inject_Z a <= q -> (a <= round_half_even q)%Z.
Proof.
  intro H.
  assert (Ha : (a <= Qfloor q)%Z) by (rewrite <- (Qfloor_Z a); apply Qfloor_resp_le; exact H).
  unfold round_half_even.
  destruct (Qlt_bool _ (1 # 2)); [lia|].
  destruct (Qlt_bool (1 # 2) _); [lia|].
  destruct (Z.even _); lia.
Qed.

Lemma round_half_even_upper (b : Z) q : q <= inject_Z b -> (round_half_even q <= b)%Z.
Proof.
  intro H. pose proof (Qfloor_le q) as Hf.
  assert (Hfb : (Qfloor q <= b)%Z) by (rewrite Zle_Qle; eapply Qle_trans; eauto).
  unfold round_half_even.
  destruct (Qlt_bool (q - inject_Z (Qfloor q)) (1 # 2)) eqn:E1; [lia|].
  apply Qlt_bool_false in E1.
  assert (Hlt : (Qfloor q < b)%Z) by (rewrite Zlt_Qlt; lra).
  destruct (Qlt_bool (1 # 2) _); [lia|].
  destruct (Z.even _); lia.
Qed.

(** [round(q, 1)] keeps a number of [[1, 10]] in [[1, 10]]. *)
Lemma round1_bounds q : 1 <= q <= 10 -> 1 <= round1 q <= 10.
Proof.
  intros [H1 H2]. unfold round1.
  assert (L : (10 <= round_half_even (q * 10))%Z)
    by (apply round_half_even_lower; change (inject_Z 10) with (10 # 1); lra).
  assert (U : (round_half_even (q * 10) <= 100)%Z)
    by (apply round_half_even_upper; change (inject_Z 100) with (100 # 1); lra).
  rewrite Zle_Qle in L, U.
  change (inject_Z 10) with (10 # 1) in L. change (inject_Z 100) with (100 # 1) in U.
  split.
  - apply Qle_shift_div_l; [reflexivity|]. rewrite Qmult_1_l. exact L.
  - apply Qle_shift_div_r; [reflexivity|]. exact U.
Qed.

(** Case split on every [Qlt_bool] test of the goal, as a comparison. *)
Ltac qlt_cases :=
  repeat match goal with
  | |- context [Qlt_bool ?a ?b] =>
      let E := fresh "E" in
      destruct (Qlt_bool a b) eqn:E;
      [apply Qlt_bool_iff in E | apply Qlt_bool_false in E]
  end.

Lemma clamp_bounds r : 1 <= py_max 1 (py_min 10 r) <= 10.
Proof. unfold py_max, py_min. qlt_cases; lra. Qed.

Lemma clamp_bounds' r : 1 <= py_min 10 (py_max 1 r) <= 10.
Proof. unfold py_max, py_min. qlt_cases; lra. Qed.

Lemma inject_Z_nonzero z : z <> 0%Z -> ~ inject_Z z == 0.
Proof. intros H E. apply (proj1 (inject_Z_injective _ 0)) in E. contradiction. Qed.

Lemma py_sum_app a b : py_sum (a ++ b)%list = (py_sum a + py_sum b)%Z.
Proof. induction a as [|x a IH]; simpl; [reflexivity|]. rewrite IH. lia. Qed.

Lemma py_range_S n : py_range (S n) = (py_range n ++ [Z.of_nat n])%list.
Proof. unfold py_range. rewrite seq_S, map_app. reflexivity. Qed.

Lemma py_range_length n : List.length (py_range n) = n.
Proof. unfold py_range. rewrite length_map, length_seq. reflexivity. Qed.

(** [2 * sum(range(n)) = n (n - 1)]. *)
Lemma sum_range n : (2 * py_sum (py_range n) = Z.of_nat n * (Z.of_nat n - 1))%Z.
Proof.
  induction n as [|n IH]; [reflexivity|].
  rewrite py_range_S, py_sum_app. simpl py_sum. lia.
Qed.

(** [6 * sum(x * x for x in range(n)) = (n - 1) n (2n - 1)]. *)
Lemma sum_squares_range n :
  (6 * py_sum (map (fun x => x * x) (py_range n))
   = (Z.of_nat n - 1) * Z.of_nat n * (2 * Z.of_nat n - 1))%Z.
Proof.
  induction n as [|n IH]; [reflexivity|].
  rewrite py_range_S, map_app, py_sum_app. simpl py_sum. lia.
Qed.

(** [12 (n sum_xx - sum_x^2) = n^2 (n - 1) (n + 1)]. *)
Lemma ols_denominator_closed n :
  (12 * ols_denominator n = Z.of_nat n * Z.of_nat n * (Z.of_nat n - 1) * (Z.of_nat n + 1))%Z.
Proof.
  unfold ols_denominator.
  pose proof (sum_range n). pose proof (sum_squares_range n). nia.
Qed.

Lemma ols_denominator_pos n : (2 <= n)%nat -> (0 < ols_denominator n)%Z.
Proof.
  intro H. pose proof (ols_denominator_closed n) as E.
  assert (0 < Z.of_nat n * Z.of_nat n * (Z.of_nat n - 1) * (Z.of_nat n + 1))%Z by
    (assert (2 <= Z.of_nat n)%Z by lia;
     apply Z.mul_pos_pos; [apply Z.mul_pos_pos; [apply Z.mul_pos_pos|]|]; lia).
  lia.
Qed.

(** With three values or more, both divisions of [predict_next_mood] are by
    nonzero numbers; the result is the clamped, rounded regression value. *)
Lemma predict_next_mood_regression l :
  (3 <= List.length l)%nat ->
  exists p, predict_next_mood l = Ok (py_max 1 (py_min 10 (round1 p))).
Proof.
  intro H. unfold predict_next_mood.
  replace (py_len l <? 3)%Z with false by (unfold py_len; symmetry; apply Z.ltb_ge; lia).
  cbv zeta.
  rewrite (true_div_nonzero _ (inject_Z (ols_denominator (List.length l))))
    by (apply inject_Z_nonzero; pose proof (ols_denominator_pos (List.length l)); lia).
  unfold py_bind at 1.
  rewrite true_div_nonzero by (apply inject_Z_nonzero; lia).
  eexists. reflexivity.
Qed.

Lemma inject_Z_len_pos {A} (xs : list A) : xs <> [] -> 0 < inject_Z (py_len xs).
Proof.
  intro H. change (inject_Z 0 < inject_Z (py_len xs)). rewrite <- Zlt_Qlt.
  destruct xs; [contradiction|]. rewrite py_len_cons. pose proof (py_len_nonneg xs). lia.
Qed.

Lemma sum_bounds l :
  Forall (fun m => 1 <= m <= 10)%Z l -> (py_len l <= py_sum l <= 10 * py_len l)%Z.
Proof.
  induction 1 as [|m l Hm _ IH]; [unfold py_len; simpl; lia|split; rewrite py_len_cons; simpl py_sum; lia].
Qed.

(** The mean of mood values of [[1, 10]] is in [[1, 10]]. *)
Lemma mean_bounds l :
  l <> [] -> Forall (fun m => 1 <= m <= 10)%Z l ->
  1 <= inject_Z (py_sum l) / inject_Z (py_len l) <= 10.
Proof.
  intros Hne Hr. pose proof (inject_Z_len_pos l Hne) as Hp.
  destruct (sum_bounds l Hr) as [L U]. split.
  - apply Qle_shift_div_l; [exact Hp|]. rewrite Qmult_1_l. rewrite <- Zle_Qle. exact L.
  - apply Qle_shift_div_r; [exact Hp|].
    change (10 * inject_Z (py_len l)) with (inject_Z 10 * inject_Z (py_len l)).
    rewrite <- inject_Z_mult, <- Zle_Qle. exact U.
Qed.

Lemma qsum_nonneg {A} (f : A -> Q) xs : (forall y, 0 <= f y) -> 0 <= qsum (map f xs).
Proof.
  intro Hf. induction xs as [|x xs IH]; simpl; [apply Qle_refl|].
  pose proof (Hf x). lra.
Qed.

Lemma Qsq_nonneg x : 0 <= x * x.
Proof.
  destruct (Qlt_le_dec x 0) as [H|H].
  - setoid_replace (x * x) with ((- x) * (- x)) by ring.
    apply Qmult_le_0_compat; lra.
  - apply Qmult_le_0_compat; exact H.
Qed.

(** The mean-centred regression of the weekly forecaster never divides by
    zero. *)
Lemma regression_slope_ok mood_values avg_mood :
  exists s, regression_slope mood_values avg_mood = Ok s.
Proof.
  unfold regression_slope.
  destruct (1 <? py_len mood_values)%Z eqn:E; [|eexists; reflexivity].
  apply Z.ltb_lt in E. unfold py_len in E.
  remember (List.length mood_values) as n eqn:Hn.
  assert (Hx : py_range n <> []) by (destruct n; [lia|discriminate]).
  rewrite true_div_len by exact Hx. unfold py_bind.
  set (m := inject_Z (py_sum (py_range n)) / inject_Z (py_len (py_range n))).
  assert (Hm : 0 < m).
  { unfold m. apply Qlt_shift_div_l; [apply inject_Z_len_pos, Hx|].
    rewrite Qmult_0_l. change (inject_Z 0 < inject_Z (py_sum (py_range n))).
    rewrite <- Zlt_Qlt. pose proof (sum_range n). nia. }
  rewrite true_div_nonzero; [eexists; reflexivity|].
  destruct n as [|n]; [lia|].
  unfold py_range. rewrite seq_S.
  assert (0 < qsum (map (fun x => (inject_Z x - m) * (inject_Z x - m))
                       (map Z.of_nat (seq 0 n ++ [n])))).
  { destruct n as [|n]; [lia|]. simpl seq. simpl map. simpl qsum.
    assert (0 < (inject_Z 0 - m) * (inject_Z 0 - m)).
    { setoid_replace ((inject_Z 0 - m) * (inject_Z 0 - m)) with (m * m) by ring.
      apply Qmult_lt_0_compat; exact Hm. }
    pose proof (qsum_nonneg (fun x => (inject_Z x - m) * (inject_Z x - m))
                  (map Z.of_nat (seq 1 n ++ [S n]))) as Hs.
    assert (Hsq : forall y, 0 <= (inject_Z y - m) * (inject_Z y - m)) by (intro; apply Qsq_nonneg).
    specialize (Hs Hsq). lra. }
  intro E0. rewrite E0 in H. exact (Qlt_irrefl 0 H).
Qed.

(** The weekly forecaster never raises: with no entry in the window it
    returns the fixed fallback, otherwise a record whose forecast is the
    seven clamped days. *)
Lemma predict_next_week_mood_shape entries user today :
  (week_recent_moods entries user today = [] /\
   predict_next_week_mood entries user today = Ok no_forecast_result) \/
  (exists base slope d,
     predict_next_week_mood entries user today = Ok d /\
     dict_get d "weekly_forecast"
       = Some (VList (map VFloat (map (forecast_day base slope) (py_range 7))))).
Proof.
  unfold predict_next_week_mood.
  destruct (week_recent_moods entries user today) as [|e rest] eqn:Hw; [left; auto|right].
  rewrite true_div_len by (simpl; discriminate). unfold py_bind at 1.
  destruct (regression_slope_ok (map me_mood (e :: rest))
              (inject_Z (py_sum (map me_mood (e :: rest)))
               / inject_Z (py_len (map me_mood (e :: rest))))) as [s Hs].
  rewrite Hs. unfold py_bind at 1.
  rewrite true_div_len by (simpl; discriminate). unfold py_bind.
  do 2 eexists.
  destruct (Qle_bool 7 _); [|destruct (Qle_bool 4 _)];
    (eexists; split; [reflexivity|reflexivity]).
Qed.

Lemma forecast_in_range base slope :
  Forall in_mood_range_q (map (forecast_day base slope) (py_range 7)).
Proof.
  apply Forall_forall. intros q Hq. apply in_map_iff in Hq as [i [<- _]].
  unfold forecast_day. apply round1_bounds, clamp_bounds'.
Qed.

Lemma filter_none {A} (p : A -> bool) l :
  (forall x, In x l -> p x = false) -> filter p l = [].
Proof.
  induction l as [|x l IH]; intro H; [reflexivity|]. simpl.
  rewrite (H x (or_introl eq_refl)). apply IH. intros y Hy. apply H. right. exact Hy.
Qed.

(** ** C3: forecasts stay in the mood range *)

(** C3: for every non-empty list of mood values of [1, 10], predict_next_mood
    returns a value of [1, 10]; and for every history, the weekly_forecast
    of predict_next_week_mood is a list of 7 values each in [1, 10]. *)
Theorem C3_forecasts_clamped :
  (forall l, l <> [] -> Forall (fun m => 1 <= m <= 10)%Z l ->
     exists v, predict_next_mood l = Ok v /\ 1 <= v <= 10) /\
  (forall entries user today, exists d fc,
     predict_next_week_mood entries user today = Ok d /\
     dict_get d "weekly_forecast" = Some (VList fc) /\
     List.length fc = 7%nat /\ Forall in_mood_range fc).
Proof.
  split.
  - intros l Hne Hr.
    destruct (Nat.lt_ge_cases (List.length l) 3) as [Hs|Hs].
    + unfold predict_next_mood.
      replace (py_len l <? 3)%Z with true by (symmetry; apply Z.ltb_lt; unfold py_len; lia).
      rewrite true_div_len by exact Hne.
      eexists; split; [reflexivity|]. apply mean_bounds; assumption.
    + destruct (predict_next_mood_regression l Hs) as [p Hp].
      eexists; split; [exact Hp|apply clamp_bounds].
  - intros entries user today.
    destruct (predict_next_week_mood_shape entries user today)
      as [[_ H]|[b [s [d [H Hd]]]]].
    + exists no_forecast_result, (map VInt [5; 5; 5; 5; 5; 5; 5]%Z).
      rewrite H. split; [reflexivity|]. split; [reflexivity|]. split; [reflexivity|].
      apply Forall_forall. intros v Hv. simpl in Hv.
      repeat (destruct Hv as [<-|Hv]; [simpl; lia|]). contradiction.
    + exists d, (map VFloat (map (forecast_day b s) (py_range 7))).
      split; [exact H|]. split; [exact Hd|].
      rewrite !length_map, py_range_length. split; [reflexivity|].
      apply Forall_map. exact (forecast_in_range b s).
Qed.

Lemma C3_forecasts_clamped_witness :
  exists v, predict_next_mood [10; 10; 10; 10; 10; 10; 10; 10; 10; 10]%Z = Ok v /\ 1 <= v <= 10.
Proof.
  apply (proj1 C3_forecasts_clamped); [discriminate|].
  repeat apply Forall_cons; try apply Forall_nil; lia.
Defined.

(** ** C6: empty window, flat neutral forecast *)

(** C6: when the user has no mood entry in the 14-day window, the weekly
    forecaster returns exactly the fallback record: forecast
    [5,5,5,5,5,5,5], confidence "low" and the data-insufficiency message. *)
Theorem C6_empty_window_flat_forecast entries user today :
  (forall e, In e entries -> in_window user (today - 14) today e = false) ->
  predict_next_week_mood entries user today = Ok no_forecast_result /\
  dict_get no_forecast_result "weekly_forecast" = Some (VList (map VInt [5; 5; 5; 5; 5; 5; 5]%Z)) /\
  dict_get no_forecast_result "confidence" = Some (VStr "low") /\
  dict_get no_forecast_result "message" = Some (VStr "Need more mood data for accurate predictions").
Proof.
  intro H.
  assert (Hw : week_recent_moods entries user today = []).
  { unfold week_recent_moods. rewrite (filter_none _ _ H). reflexivity. }
  unfold predict_next_week_mood. rewrite Hw.
  repeat split; reflexivity.
Qed.

Lemma C6_empty_window_flat_forecast_witness :
  predict_next_week_mood [mkMoodEntry 1 9 50; mkMoodEntry 2 3 100] 1 100
    = Ok no_forecast_result /\
  dict_get no_forecast_result "weekly_forecast" = Some (VList (map VInt [5; 5; 5; 5; 5; 5; 5]%Z)) /\
  dict_get no_forecast_result "confidence" = Some (VStr "low") /\
  dict_get no_forecast_result "message" = Some (VStr "Need more mood data for accurate predictions").
Proof.
  apply C6_empty_window_flat_forecast.
  intros e [<-|[<-|[]]]; reflexivity.
Defined.

(** ** C8: the OLS divisor is nonzero *)

(** C8: for a mood list of length n >= 3, the divisor n * sum(x*x) - sum(x)^2
    over x = 0..n-1 is nonzero, and neither division of the regression
    branch of predict_next_mood raises ZeroDivisionError. *)
Theorem C8_ols_denominator_nonzero (l : list Z) :
  (3 <= List.length l)%nat ->
  ols_denominator (List.length l) <> 0%Z /\ predict_next_mood l <> ZeroDivisionError.
Proof.
  intro H. split.
  - pose proof (ols_denominator_pos (List.length l)). lia.
  - destruct (predict_next_mood_regression l H) as [p ->]. discriminate.
Qed.

Lemma C8_ols_denominator_nonzero_witness :
  ols_denominator (List.length [4; 4; 4]%Z) <> 0%Z /\
  predict_next_mood [4; 4; 4]%Z <> ZeroDivisionError.
Proof. apply C8_ols_denominator_nonzero. simpl. lia. Defined.

(** ** C4 and C10: the recommendation engine *)

Lemma bucket_recommendations_four avg_mood :
  exists a b c d, bucket_recommendations avg_mood = [a; b; c; d].
Proof.
  unfold bucket_recommendations.
  destruct (Qlt_bool avg_mood 4); [|destruct (Qlt_bool avg_mood 6)]; do 4 eexists; reflexivity.
Qed.

(** C4: the recommendation list has at most 5 entries; for a declining trend
    its first two entries are the urgent-support messages; and it is the
    first 5 entries of the spec's pipeline (urgent messages inserted before
    the bucket, appends after, truncation last). *)
Theorem C4_recommendations_order (avg_mood : Q) (trend : string) (journal_count : Z) :
  (List.length (generate_ai_recommendations avg_mood trend journal_count) <= 5)%nat /\
  (exists rest, generate_ai_recommendations avg_mood "declining" journal_count
                = urgent_support_1 :: urgent_support_2 :: rest) /\
  generate_ai_recommendations avg_mood trend journal_count
    = firstn 5 (spec_recommendation_pipeline avg_mood trend journal_count).
Proof.
  unfold generate_ai_recommendations, spec_recommendation_pipeline.
  destruct (bucket_recommendations_four avg_mood) as [a [b [c [d ->]]]].
  split; [|split].
  - rewrite length_firstn. lia.
  - destruct (journal_count <? 5)%Z; eexists; reflexivity.
  - destruct (String.eqb trend "declining"), (journal_count <? 5)%Z; reflexivity.
Qed.

(** C10: the recommendation list always has exactly 5 entries: the bucket
    gives 4 and the wellness-games message is always appended, as the game
    session counter is the constant 0. *)
Theorem C10_recommendations_exactly_five (avg_mood : Q) (trend : string) (journal_count : Z) :
  List.length (generate_ai_recommendations avg_mood trend journal_count) = 5%nat.
Proof.
  unfold generate_ai_recommendations.
  destruct (bucket_recommendations_four avg_mood) as [a [b [c [d ->]]]].
  destruct (String.eqb trend "declining"), (journal_count <? 5)%Z; reflexivity.
Qed.

(** ** C5: the streak calculator *)

Lemma has_entry_on_In entries user d e :
  In e entries -> me_user e = user -> me_date e = d -> has_entry_on entries user d = true.
Proof.
  intros Hin Hu Hd. unfold has_entry_on. apply existsb_exists. exists e.
  split; [exact Hin|]. rewrite Hu, Hd, Nat.eqb_refl, Z.eqb_refl. reflexivity.
Qed.

Lemma has_entry_on_false entries user d :
  (forall e, In e entries -> me_user e = user -> me_date e <> d) ->
  has_entry_on entries user d = false.
Proof.
  intro H. unfold has_entry_on. destruct (existsb _ entries) eqn:E; [|reflexivity].
  apply existsb_exists in E as [e [Hin He]].
  apply andb_true_iff in He as [Hu Hd].
  apply Nat.eqb_eq in Hu. apply Z.eqb_eq in Hd. exfalso. exact (H e Hin Hu Hd).
Qed.

(** The loop counts the days [d, d-1, ...] that have an entry and stops at
    the first day without one, or when its fuel runs out. *)
Lemma streak_loop_spec fuel entries user : forall d s,
  exists j,
    streak_loop fuel entries user d s = (s + Z.of_nat j)%Z /\
    (forall i, (i < j)%nat -> has_entry_on entries user (d - Z.of_nat i) = true) /\
    (j = fuel \/ has_entry_on entries user (d - Z.of_nat j) = false).
Proof.
  induction fuel as [|fuel IH]; intros d s; simpl.
  - exists 0%nat. split; [lia|]. split; [intros; lia|left; reflexivity].
  - destruct (has_entry_on entries user d) eqn:E.
    + destruct (IH (d - 1)%Z (s + 1)%Z) as [j [Hr [Hall Hend]]].
      exists (S j). split; [rewrite Hr; lia|]. split.
      * intros [|i] Hi.
        -- replace (d - Z.of_nat 0)%Z with d by lia. exact E.
        -- replace (d - Z.of_nat (S i))%Z with (d - 1 - Z.of_nat i)%Z by lia.
           apply Hall. lia.
      * destruct Hend as [Hj|Hj]; [left; lia|right].
        replace (d - Z.of_nat (S j))%Z with (d - 1 - Z.of_nat j)%Z by lia. exact Hj.
    + exists 0%nat. split; [lia|]. split; [intros; lia|right].
      replace (d - Z.of_nat 0)%Z with d by lia. exact E.
Qed.

(** Consecutive days with an entry are distinct dates of entries, so there
    are at most [length entries] of them. *)
Lemma streak_days_bound entries user d j :
  (forall i, (i < j)%nat -> has_entry_on entries user (d - Z.of_nat i) = true) ->
  (j <= List.length entries)%nat.
Proof.
  intro H.
  set (days := map (fun i => d - Z.of_nat i)%Z (seq 0 j)).
  assert (Hnd : NoDup days).
  { apply NoDup_map_NoDup_ForallPairs; [|apply seq_NoDup].
    intros a b _ _ Hab. lia. }
  assert (Hincl : incl days (map me_date entries)).
  { intros x Hx. apply in_map_iff in Hx as [i [<- Hi]]. apply in_seq in Hi.
    specialize (H i ltac:(lia)). unfold has_entry_on in H.
    apply existsb_exists in H as [e [Hin He]].
    apply andb_true_iff in He as [_ Hd]. apply Z.eqb_eq in Hd.
    rewrite <- Hd. apply in_map. exact Hin. }
  pose proof (NoDup_incl_length Hnd Hincl) as Hl.
  unfold days in Hl. rewrite !length_map, length_seq in Hl. exact Hl.
Qed.

(** The loop of [calculate_streak] ends by its [break]. *)
Lemma streak_loop_fuel entries user today :
  exists j,
    calculate_streak entries user today = Z.of_nat j /\
    (forall i, (i < j)%nat -> has_entry_on entries user (today - Z.of_nat i) = true) /\
    has_entry_on entries user (today - Z.of_nat j) = false.
Proof.
  unfold calculate_streak.
  destruct (streak_loop_spec (S (List.length entries)) entries user today 0)
    as [j [Hr [Hall Hend]]].
  exists j. split; [rewrite Hr; lia|]. split; [exact Hall|].
  destruct Hend as [Hj|Hj]; [|exact Hj].
  pose proof (streak_days_bound entries user today j Hall). lia.
Qed.

(** C5: the streak is the number k of consecutive calendar days today,
    today-1, ..., today-(k-1) that each have an entry of the user, the day
    today-k having none; no entry today gives 0; entries today, yesterday
    and 3 days ago give 2. *)
Theorem C5_streak_consecutive_days :
  (forall entries user today k,
     calculate_streak entries user today = k <->
     ((0 <= k)%Z /\
      (forall i, (0 <= i < k)%Z -> has_entry_on entries user (today - i) = true) /\
      has_entry_on entries user (today - k) = false)) /\
  (forall entries user today,
     calculate_streak entries user today = 0%Z <-> has_entry_on entries user today = false) /\
  (forall user today m1 m2 m3,
     calculate_streak [mkMoodEntry user m1 today; mkMoodEntry user m2 (today - 1);
                       mkMoodEntry user m3 (today - 3)] user today = 2%Z).
Proof.
  assert (Hiff : forall entries user today k,
     calculate_streak entries user today = k <->
     ((0 <= k)%Z /\
      (forall i, (0 <= i < k)%Z -> has_entry_on entries user (today - i) = true) /\
      has_entry_on entries user (today - k) = false)).
  { intros entries user today k.
    destruct (streak_loop_fuel entries user today) as [j [Hr [Hall Hend]]].
    rewrite Hr. split.
    - intros <-. split; [lia|]. split; [|exact Hend].
      intros i Hi. replace i with (Z.of_nat (Z.to_nat i)) by lia. apply Hall. lia.
    - intros [Hk [Hkall Hkend]].
      destruct (Z.lt_trichotomy (Z.of_nat j) k) as [Hlt|[Heq|Hgt]]; [|exact Heq|].
      + rewrite Hkall in Hend by lia. discriminate.
      + specialize (Hall (Z.to_nat k) ltac:(lia)).
        replace (Z.of_nat (Z.to_nat k)) with k in Hall by lia. congruence. }
  split; [exact Hiff|]. split.
  - intros entries user today. rewrite Hiff.
    replace (today - 0)%Z with today by lia. split.
    + intros [_ [_ H]]. exact H.
    + intro H. split; [lia|]. split; [intros; lia|exact H].
  - intros user today m1 m2 m3. apply Hiff. split; [lia|]. split.
    + intros i Hi. assert (i = 0 \/ i = 1)%Z as [->| ->] by lia.
      * eapply has_entry_on_In; [left; reflexivity|reflexivity|simpl; lia].
      * eapply has_entry_on_In; [right; left; reflexivity|reflexivity|simpl; lia].
    + apply has_entry_on_false. intros e [<-|[<-|[<-|[]]]] _; simpl; lia.
Qed.

(** ** C7: the achievement rule check *)

Definition title_is (user : nat) (title : string) (a : Achievement) : bool :=
  Nat.eqb (a_user a) user && String.eqb (a_title a) title.

Lemma count_create st a user title :
  count_achievements (create_achievement st a) user title
  = (count_achievements st user title + if title_is user title a then 1 else 0)%nat.
Proof.
  unfold count_achievements, create_achievement. simpl achievements.
  rewrite filter_app, length_app. simpl. unfold title_is.
  destruct (Nat.eqb (a_user a) user && String.eqb (a_title a) title); reflexivity.
Qed.

Lemma exists_count st user title :
  achievement_exists st user title = (0 <? count_achievements st user title)%nat.
Proof.
  unfold achievement_exists, count_achievements.
  induction (achievements st) as [|a l IH]; [reflexivity|]. simpl.
  destruct (Nat.eqb (a_user a) user && String.eqb (a_title a) title); simpl; [|exact IH].
  reflexivity.
Qed.

Lemma exists_create_mono st a user title :
  achievement_exists st user title = true ->
  achievement_exists (create_achievement st a) user title = true.
Proof.
  rewrite !exists_count, count_create. intro H. apply Nat.ltb_lt in H.
  apply Nat.ltb_lt. lia.
Qed.

Lemma exists_create_new st user title description points :
  achievement_exists (create_achievement st (mkAchievement user title description points))
    user title = true.
Proof.
  rewrite exists_count, count_create. unfold title_is. cbn [a_user a_title].
  rewrite Nat.eqb_refl, String.eqb_refl. apply Nat.ltb_lt. simpl andb. cbv iota. lia.
Qed.

Lemma create_guarded st a :
  at_most_one_per_title st ->
  achievement_exists st (a_user a) (a_title a) = false ->
  at_most_one_per_title (create_achievement st a).
Proof.
  intros Hst Hex user title. rewrite count_create.
  destruct (title_is user title a) eqn:E; [|specialize (Hst user title); lia].
  unfold title_is in E. apply andb_true_iff in E as [Hu Ht].
  apply Nat.eqb_eq in Hu. apply String.eqb_eq in Ht. subst.
  rewrite exists_count in Hex. apply Nat.ltb_ge in Hex. lia.
Qed.

Lemma check_mood_entries user st :
  mood_entries (check_achievements user st) = mood_entries st.
Proof.
  unfold check_achievements.
  destruct (_ && negb (achievement_exists st user "Week Warrior")); simpl;
    match goal with |- context [if ?c then _ else _] => destruct c end; reflexivity.
Qed.

Lemma check_preserves user st :
  at_most_one_per_title st -> at_most_one_per_title (check_achievements user st).
Proof.
  intro Hst. unfold check_achievements.
  set (c := py_len (filter (fun e => Nat.eqb (me_user e) user) (mood_entries st))).
  set (st1 := if (7 <=? c)%Z && negb (achievement_exists st user "Week Warrior")
              then create_achievement st (mkAchievement user "Week Warrior" "Logged mood for 7 days!" 10)
              else st).
  assert (H1 : at_most_one_per_title st1).
  { unfold st1. destruct ((7 <=? c)%Z && negb (achievement_exists st user "Week Warrior")) eqn:E;
      [|exact Hst].
    apply andb_true_iff in E as [_ E]. apply negb_true_iff in E.
    apply create_guarded; assumption. }
  destruct ((30 <=? c)%Z && negb (achievement_exists st1 user "Monthly Master")) eqn:E;
    [|exact H1].
  apply andb_true_iff in E as [_ E]. apply negb_true_iff in E.
  apply create_guarded; assumption.
Qed.

Lemma check_creates_week user st :
  (7 <=? py_len (filter (fun e => Nat.eqb (me_user e) user) (mood_entries st)))%Z = true ->
  achievement_exists (check_achievements user st) user "Week Warrior" = true.
Proof.
  intro H7. unfold check_achievements. rewrite H7. simpl andb.
  destruct (achievement_exists st user "Week Warrior") eqn:E; simpl negb; cbv iota.
  - destruct (_ && _); [apply exists_create_mono|]; exact E.
  - destruct (_ && _); [apply exists_create_mono|]; apply exists_create_new.
Qed.

Lemma check_creates_month user st :
  (30 <=? py_len (filter (fun e => Nat.eqb (me_user e) user) (mood_entries st)))%Z = true ->
  achievement_exists (check_achievements user st) user "Monthly Master" = true.
Proof.
  intro H30. unfold check_achievements. rewrite H30. simpl andb.
  match goal with |- context [if negb ?c then _ else _] => destruct c eqn:E end;
    simpl negb; cbv iota; [exact E|apply exists_create_new].
Qed.

(** C7: once a user has "Week Warrior", running check_achievements again
    creates no second one; running the rule check twice in a row changes
    nothing more than running it once; and along any sequential run of mood
    logging and rule checks, each (user, title) keeps at most one
    achievement. *)
Theorem C7_achievements_idempotent :
  (forall st user,
     achievement_exists st user "Week Warrior" = true ->
     count_achievements (check_achievements user st) user "Week Warrior"
     = count_achievements st user "Week Warrior") /\
  (forall st user,
     check_achievements user (check_achievements user st) = check_achievements user st) /\
  (forall st ops, at_most_one_per_title st -> at_most_one_per_title (run_ops st ops)).
Proof.
  split; [|split].
  - intros st user Hex. unfold check_achievements. rewrite Hex. simpl negb.
    rewrite andb_false_r. cbv iota.
    destruct (_ && _); [|reflexivity].
    rewrite count_create. unfold title_is. cbn [a_user a_title].
    rewrite Nat.eqb_refl. simpl. lia.
  - intros st user. remember (check_achievements user st) as st1 eqn:H1.
    assert (Hm : mood_entries st1 = mood_entries st) by (subst; apply check_mood_entries).
    unfold check_achievements. rewrite Hm.
    destruct (7 <=? py_len (filter (fun e => Nat.eqb (me_user e) user) (mood_entries st)))%Z
      eqn:E7.
    + assert (Hw : achievement_exists st1 user "Week Warrior" = true)
        by (subst; apply check_creates_week; exact E7).
      rewrite Hw. simpl negb. rewrite andb_false_r. cbv iota.
      destruct (30 <=? py_len (filter (fun e => Nat.eqb (me_user e) user) (mood_entries st)))%Z
        eqn:E30; [|reflexivity].
      assert (Hmm : achievement_exists st1 user "Monthly Master" = true)
        by (subst; apply check_creates_month; exact E30).
      rewrite Hmm. reflexivity.
    + simpl andb. cbv iota.
      destruct (30 <=? py_len (filter (fun e => Nat.eqb (me_user e) user) (mood_entries st)))%Z
        eqn:E30; [|reflexivity].
      assert (Hmm : achievement_exists st1 user "Monthly Master" = true)
        by (subst; apply check_creates_month; exact E30).
      rewrite Hmm. reflexivity.
  - intros st ops. revert st. induction ops as [|op ops IH]; intros st Hst; [exact Hst|].
    simpl. apply IH. destruct op as [e|user]; simpl.
    + apply check_preserves. intros user title. exact (Hst user title).
    + apply check_preserves, Hst.
Qed.

Definition week_warrior_store : Store :=
  mkStore (repeat (mkMoodEntry 1 6 0) 7)
          [mkAchievement 1 "Week Warrior" "Logged mood for 7 days!" 10].

Lemma C7_achievements_idempotent_witness :
  count_achievements (check_achievements 1 week_warrior_store) 1 "Week Warrior"
    = count_achievements week_warrior_store 1 "Week Warrior" /\
  at_most_one_per_title
    (run_ops week_warrior_store [RunCheck 1; RunCheck 1; LogMood (mkMoodEntry 1 7 1)]).
Proof.
  split.
  - apply (proj1 C7_achievements_idempotent). reflexivity.
  - apply (proj2 (proj2 C7_achievements_idempotent)).
    intros user title. unfold count_achievements, week_warrior_store.
    cbn [achievements filter]. destruct (_ && _); simpl; lia.
Defined.

(** ** C1: trend classification *)

Lemma half_index {A} (l : list A) : Z.to_nat (py_len l / 2) = (List.length l / 2)%nat.
Proof. unfold py_len. rewrite <- (Nat2Z.inj_div _ 2). apply Nat2Z.id. Qed.

Lemma halves_nonempty {A} (l : list A) :
  (3 <= List.length l)%nat ->
  firstn (List.length l / 2) l <> [] /\ skipn (List.length l / 2) l <> [].
Proof.
  intro H.
  assert (H1 : (1 <= List.length l / 2)%nat)
    by (apply (Nat.div_le_lower_bound (List.length l) 2 1); lia).
  assert (H2 : (List.length l / 2 < List.length l)%nat) by (apply Nat.div_lt; lia).
  set (k := (List.length l / 2)%nat) in *.
  split; intro E; apply (f_equal (@List.length A)) in E;
    [rewrite length_firstn in E | rewrite length_skipn in E]; simpl in E; lia.
Qed.

Lemma half_avg (xs : list Z) a :
  xs <> [] ->
  match xs with
  | [] => Ok a
  | _ => true_div (inject_Z (py_sum xs)) (inject_Z (py_len xs))
  end = Ok (mean xs).
Proof. intro H. destruct xs as [|x xs]; [contradiction|]. apply true_div_len. discriminate. Qed.

Lemma views_trend_slope l a : Views.trend_slope l a = Ok (claimed_slope l).
Proof.
  unfold Views.trend_slope, claimed_slope, slice_to, slice_from. rewrite half_index.
  destruct (3 <=? py_len l)%Z eqn:E.
  - apply Z.leb_le in E. unfold py_len in E.
    replace (List.length l <? 3)%nat with false by (symmetry; apply Nat.ltb_ge; lia).
    replace (1 <? py_len l)%Z with true by (symmetry; apply Z.ltb_lt; unfold py_len; lia).
    destruct (halves_nonempty l ltac:(lia)) as [H1 H2]. cbv zeta.
    rewrite (half_avg _ a H1). unfold py_bind at 1. rewrite (half_avg _ a H2). reflexivity.
  - apply Z.leb_gt in E. unfold py_len in E.
    replace (List.length l <? 3)%nat with true by (symmetry; apply Nat.ltb_lt; lia).
    reflexivity.
Qed.

Lemma api_trend_slope l a : Api.trend_slope l a = Ok (claimed_slope l).
Proof.
  unfold Api.trend_slope, claimed_slope, slice_to, slice_from. rewrite half_index.
  destruct (3 <=? py_len l)%Z eqn:E.
  - apply Z.leb_le in E. unfold py_len in E.
    replace (List.length l <? 3)%nat with false by (symmetry; apply Nat.ltb_ge; lia).
    destruct (halves_nonempty l ltac:(lia)) as [H1 H2].
    rewrite (half_avg _ a H1). unfold py_bind at 1. rewrite (half_avg _ a H2). reflexivity.
  - apply Z.leb_gt in E. unfold py_len in E.
    replace (List.length l <? 3)%nat with true by (symmetry; apply Nat.ltb_lt; lia).
    reflexivity.
Qed.

Lemma views_trend_of_slope s :
  exists m r, Views.trend_of_slope s = (claimed_label s, m, r).
Proof.
  unfold Views.trend_of_slope, claimed_label.
  destruct (Qlt_bool (1 # 2) s); [|destruct (Qlt_bool s (-1 # 2))]; do 2 eexists; reflexivity.
Qed.

Lemma api_trend_of_slope s : exists m, Api.trend_of_slope s = (claimed_label s, m).
Proof.
  unfold Api.trend_of_slope, claimed_label.
  destruct (Qlt_bool (1 # 2) s); [|destruct (Qlt_bool s (-1 # 2))]; eexists; reflexivity.
Qed.

Lemma views_analyze_nonempty l :
  l <> [] ->
  exists d, Views.analyze_mood_trends l = Ok d /\
    dict_get d "trend" = Some (VStr (claimed_label (claimed_slope l))) /\
    dict_keys d = ["trend"; "mood_level"; "avg_mood"; "message"; "additional_message";
                   "recommendations"; "data_points"].
Proof.
  intro H. destruct l as [|x xs]; [contradiction|].
  unfold Views.analyze_mood_trends. rewrite true_div_len by discriminate.
  unfold py_bind at 1. rewrite views_trend_slope. unfold py_bind.
  destruct (views_trend_of_slope (claimed_slope (x :: xs))) as [m [r ->]].
  destruct (Views.mood_level_of _) as [lv am].
  eexists; split; [reflexivity|]. split; reflexivity.
Qed.

Lemma api_analyze_nonempty l :
  l <> [] ->
  exists d, Api.analyze_mood_trends l = Ok d /\
    dict_get d "trend" = Some (VStr (claimed_label (claimed_slope l))) /\
    dict_keys d = ["trend"; "avg_mood"; "message"; "data_points"].
Proof.
  intro H. destruct l as [|x xs]; [contradiction|].
  unfold Api.analyze_mood_trends. rewrite true_div_len by discriminate.
  unfold py_bind at 1. rewrite api_trend_slope. unfold py_bind.
  destruct (api_trend_of_slope (claimed_slope (x :: xs))) as [m ->].
  eexists; split; [reflexivity|]. split; reflexivity.
Qed.

Lemma confidence_ok l : exists c, calculate_prediction_confidence l = Ok c.
Proof.
  unfold calculate_prediction_confidence.
  destruct (py_len l <? 5)%Z eqn:E; [eexists; reflexivity|].
  assert (Hne : l <> []) by (intros ->; discriminate).
  rewrite true_div_len by exact Hne. unfold py_bind at 1.
  rewrite true_div_len by exact Hne. unfold py_bind.
  destruct (Qlt_bool _ 1); [|destruct (Qlt_bool _ 4)]; eexists; reflexivity.
Qed.

Lemma ai_prediction_trend recent_moods journal_count :
  (7 <= List.length recent_moods)%nat ->
  exists d, ai_mood_prediction recent_moods journal_count = Ok (Some d) /\
    dict_get d "trend"
      = Some (VStr (ai_label (mean (firstn (List.length recent_moods / 2) recent_moods))
                             (mean (skipn (List.length recent_moods / 2) recent_moods)))).
Proof.
  intro H. unfold ai_mood_prediction, slice_to, slice_from. rewrite half_index.
  replace (7 <=? py_len recent_moods)%Z with true by (symmetry; apply Z.leb_le; unfold py_len; lia).
  assert (Hne : recent_moods <> []) by (intros ->; simpl in H; lia).
  destruct (halves_nonempty recent_moods ltac:(lia)) as [H1 H2].
  rewrite true_div_len by exact Hne. unfold py_bind at 1. cbv zeta.
  rewrite true_div_len by exact H1. unfold py_bind at 1.
  rewrite true_div_len by exact H2. unfold py_bind at 1.
  destruct (predict_next_mood_regression recent_moods ltac:(lia)) as [p ->].
  destruct (confidence_ok recent_moods) as [c ->].
  unfold ai_trend_of, ai_label.
  destruct (Qlt_bool _ _); [|destruct (Qlt_bool _ _)]; eexists; split; reflexivity.
Qed.

(** C1 (code bug): ai_mood_prediction reads the user's moods newest first
    ([order_by('-date')]) but labels the trend "improving" when the second
    half of that list, the older moods, has the higher mean. On the
    chronological history [9,8,7,6,5,4,3], whose spec slope is -7/2 and which
    analyze_mood_trends labels "declining", it reports "improving" with the
    message that the mood has been trending upward. *)
Lemma C1_counterexample :
  claimed_label (claimed_slope [9; 8; 7; 6; 5; 4; 3]%Z) = "declining" /\
  (exists d, Views.analyze_mood_trends [9; 8; 7; 6; 5; 4; 3]%Z = Ok d /\
     dict_get d "trend" = Some (VStr "declining")) /\
  (exists d, ai_mood_prediction (ai_recent_moods [9; 8; 7; 6; 5; 4; 3]%Z) 10 = Ok (Some d) /\
     dict_get d "trend" = Some (VStr "improving") /\
     dict_get d "trend_message"
       = Some (VStr "Your mood has been trending upward! Keep up the great work.")).
Proof.
  split; [vm_compute; reflexivity|]. split.
  - eexists. split; [reflexivity|]. vm_compute. reflexivity.
  - eexists. split; [reflexivity|]. vm_compute. split; reflexivity.
Qed.

(** Both variants of analyze_mood_trends label a non-empty chronological
    history by its slope: 0 below three values, otherwise mean(second half)
    - mean(first half) with a first half of floor(n/2) values; the label is
    improving iff slope > 0.5, declining iff slope < -0.5, stable otherwise. *)
Theorem analyze_mood_trends_half_means (l : list Z) :
  l <> [] ->
  Views.trend_slope l (mean l) = Ok (claimed_slope l) /\
  Api.trend_slope l (mean l) = Ok (claimed_slope l) /\
  (exists d, Views.analyze_mood_trends l = Ok d /\
     dict_get d "trend" = Some (VStr (claimed_label (claimed_slope l)))) /\
  (exists d, Api.analyze_mood_trends l = Ok d /\
     dict_get d "trend" = Some (VStr (claimed_label (claimed_slope l)))).
Proof.
  intro H. split; [apply views_trend_slope|]. split; [apply api_trend_slope|].
  split.
  - destruct (views_analyze_nonempty l H) as [d [Hd [Ht _]]]. eauto.
  - destruct (api_analyze_nonempty l H) as [d [Hd [Ht _]]]. eauto.
Qed.

Lemma analyze_mood_trends_half_means_witness :
  Views.trend_slope [2; 3; 8]%Z (mean [2; 3; 8]%Z) = Ok (claimed_slope [2; 3; 8]%Z) /\
  Api.trend_slope [2; 3; 8]%Z (mean [2; 3; 8]%Z) = Ok (claimed_slope [2; 3; 8]%Z) /\
  (exists d, Views.analyze_mood_trends [2; 3; 8]%Z = Ok d /\
     dict_get d "trend" = Some (VStr (claimed_label (claimed_slope [2; 3; 8]%Z)))) /\
  (exists d, Api.analyze_mood_trends [2; 3; 8]%Z = Ok d /\
     dict_get d "trend" = Some (VStr (claimed_label (claimed_slope [2; 3; 8]%Z)))).
Proof. apply analyze_mood_trends_half_means. discriminate. Defined.

(** ** C2: empty histories *)

(** C2 (as stated, refuted): predict_next_mood on the empty list evaluates
    0 / 0 and raises ZeroDivisionError. *)
Lemma C2_counterexample : predict_next_mood [] = ZeroDivisionError.
Proof. reflexivity. Qed.

(** C2 (amended): on an empty history every analytics entry point returns
    its fixed default (neutral trend record in both variants, no prediction
    data, confidence "Low", the flat weekly forecast, streak 0, no new
    achievement); none of them raises on any input, and predict_next_mood
    (unguarded, raising on the empty list) returns a value on every
    non-empty list, which is all its caller gives it. *)
Theorem C2_empty_history_defaults :
  Views.analyze_mood_trends [] = Ok Views.no_data_result /\
  Api.analyze_mood_trends [] = Ok Api.no_data_result /\
  (forall journal_count, ai_mood_prediction [] journal_count = Ok None) /\
  calculate_prediction_confidence [] = Ok "Low" /\
  (forall user today, predict_next_week_mood [] user today = Ok no_forecast_result) /\
  (forall user today, calculate_streak [] user today = 0%Z) /\
  (forall achs user, check_achievements user (mkStore [] achs) = mkStore [] achs) /\
  (forall l, exists d, Views.analyze_mood_trends l = Ok d) /\
  (forall l, exists d, Api.analyze_mood_trends l = Ok d) /\
  (forall l journal_count, exists r, ai_mood_prediction l journal_count = Ok r) /\
  (forall l, exists c, calculate_prediction_confidence l = Ok c) /\
  (forall entries user today, exists d, predict_next_week_mood entries user today = Ok d) /\
  (forall l, l <> [] -> exists v, predict_next_mood l = Ok v).
Proof.
  split; [reflexivity|]. split; [reflexivity|]. split; [reflexivity|].
  split; [reflexivity|]. split; [reflexivity|]. split; [reflexivity|].
  split; [reflexivity|]. split.
  { intros [|x xs]; [eexists; reflexivity|].
    destruct (views_analyze_nonempty (x :: xs)) as [d [Hd _]]; [discriminate|eauto]. }
  split.
  { intros [|x xs]; [eexists; reflexivity|].
    destruct (api_analyze_nonempty (x :: xs)) as [d [Hd _]]; [discriminate|eauto]. }
  split.
  { intros l jc. destruct (Nat.lt_ge_cases (List.length l) 7) as [H|H].
    - unfold ai_mood_prediction.
      replace (7 <=? py_len l)%Z with false by (symmetry; apply Z.leb_gt; unfold py_len; lia).
      eexists; reflexivity.
    - destruct (ai_prediction_trend l jc H) as [d [Hd _]]. eauto. }
  split; [exact confidence_ok|]. split.
  { intros entries user today.
    destruct (predict_next_week_mood_shape entries user today) as [[_ H]|[b [s [d [H _]]]]];
      eauto. }
  intros l H. destruct (Nat.lt_ge_cases (List.length l) 3) as [Hs|Hs].
  - unfold predict_next_mood.
    replace (py_len l <? 3)%Z with true by (symmetry; apply Z.ltb_lt; unfold py_len; lia).
    rewrite true_div_len by exact H. eexists; reflexivity.
  - destruct (predict_next_mood_regression l Hs) as [p Hp]. eauto.
Qed.

Lemma C2_empty_history_defaults_witness : exists v, predict_next_mood [5]%Z = Ok v.
Proof.
  apply (proj2 (proj2 (proj2 (proj2 (proj2 (proj2 (proj2 (proj2 (proj2 (proj2 (proj2
           (proj2 C2_empty_history_defaults)))))))))))).
  discriminate.
Defined.

(** ** C9: fields of the trend record *)

(** C9 (as stated, refuted): the dashboard record of an empty history has
    no avg_mood, and the API record of a non-empty history has no
    recommendations. *)
Lemma C9_counterexample :
  (exists d, Views.analyze_mood_trends [] = Ok d /\ ~ In "avg_mood" (dict_keys d)) /\
  (exists d, Api.analyze_mood_trends [7]%Z = Ok d /\ ~ In "recommendations" (dict_keys d)).
Proof.
  split; eexists; split; try reflexivity; simpl;
    intros H; repeat (destruct H as [H|H]; [discriminate H|]); exact H.
Qed.

(** C9 (amended): the dashboard record of a non-empty history has the keys
    trend, mood_level, avg_mood, message, additional_message,
    recommendations, data_points; the API record of a non-empty history has
    trend, avg_mood, message, data_points; for an empty history both
    return only trend, message and recommendations. *)
Theorem C9_trend_record_fields (l : list Z) :
  exists d d',
    Views.analyze_mood_trends l = Ok d /\ Api.analyze_mood_trends l = Ok d' /\
    dict_keys d = match l with
                  | [] => ["trend"; "message"; "recommendations"]
                  | _ => ["trend"; "mood_level"; "avg_mood"; "message"; "additional_message";
                          "recommendations"; "data_points"]
                  end /\
    dict_keys d' = match l with
                   | [] => ["trend"; "message"; "recommendations"]
                   | _ => ["trend"; "avg_mood"; "message"; "data_points"]
                   end.
Proof.
  destruct l as [|x xs].
  - do 2 eexists. repeat split; reflexivity.
  - destruct (views_analyze_nonempty (x :: xs)) as [d [Hd [_ Hk]]]; [discriminate|].
    destruct (api_analyze_nonempty (x :: xs)) as [d' [Hd' [_ Hk']]]; [discriminate|].
    exists d, d'. repeat split; assumption.
Qed.

(** ** Further properties of the code *)

Lemma py_sum_repeat c n : py_sum (repeat c n) = (Z.of_nat n * c)%Z.
Proof. induction n as [|n IH]; [reflexivity|]. cbn [repeat py_sum fold_right]. fold (py_sum (repeat c n)). rewrite IH. lia. Qed.

Lemma sum_products_repeat xs c :
  sum_products xs (repeat c (List.length xs)) = (c * py_sum xs)%Z.
Proof.
  unfold sum_products. induction xs as [|x xs IH]; simpl; [lia|]. rewrite IH. lia.
Qed.

Lemma round1_int q z : q == inject_Z z -> round1 q == inject_Z z.
Proof.
  intro Hq.
  assert (H10 : q * 10 == inject_Z (z * 10)) by (rewrite inject_Z_mult, Hq; reflexivity).
  assert (E : round_half_even (q * 10) = (z * 10)%Z).
  { apply Z.le_antisymm; [apply round_half_even_upper|apply round_half_even_lower];
      rewrite H10; apply Qle_refl. }
  unfold round1. rewrite E, inject_Z_mult. change (inject_Z 10) with (10 # 1). field.
Qed.

Lemma clamp_id r : 1 <= r <= 10 -> py_max 1 (py_min 10 r) == r.
Proof.
  intros. unfold py_max, py_min.
  destruct (Qlt_bool r 10) eqn:E0; [apply Qlt_bool_iff in E0|apply Qlt_bool_false in E0];
    qlt_cases; lra.
Qed.

Lemma clamp_id' r : 1 <= r <= 10 -> py_min 10 (py_max 1 r) == r.
Proof.
  intros. unfold py_max, py_min.
  destruct (Qlt_bool 1 r) eqn:E0; [apply Qlt_bool_iff in E0|apply Qlt_bool_false in E0];
    qlt_cases; lra.
Qed.

Lemma inject_Z_range z : (1 <= z <= 10)%Z -> 1 <= inject_Z z <= 10.
Proof.
  intros [H1 H2]. rewrite Zle_Qle in H1, H2. split; assumption.
Qed.

Lemma mean_repeat c n : (1 <= n)%nat ->
  inject_Z (Z.of_nat n * c) / inject_Z (Z.of_nat n) == inject_Z c.
Proof.
  intro H. rewrite inject_Z_mult. field.
  apply inject_Z_nonzero. lia.
Qed.

(** A constant history of a mood c between 1 and 10, of length at least one, makes predict_next_mood return c: the fitted line is flat at c and the clamp to [1, 10] leaves it. *)
Theorem predict_next_mood_constant (c : Z) (n : nat) :
  (1 <= c <= 10)%Z -> (1 <= n)%nat ->
  exists v, predict_next_mood (repeat c n) = Ok v /\ v == inject_Z c.
Proof.
  intros Hc Hn. unfold predict_next_mood.
  unfold py_len. rewrite repeat_length, py_sum_repeat.
  destruct (Z.of_nat n <? 3)%Z eqn:E.
  - rewrite true_div_nonzero by (apply inject_Z_nonzero; lia).
    eexists; split; [reflexivity|]. apply mean_repeat, Hn.
  - apply Z.ltb_ge in E. cbv zeta.
    pose proof (sum_products_repeat (py_range n) c) as Hs. rewrite py_range_length in Hs.
    rewrite Hs.
    replace (Z.of_nat n * (c * py_sum (py_range n)) - py_sum (py_range n) * (Z.of_nat n * c))%Z
      with 0%Z by ring.
    rewrite (true_div_nonzero _ (inject_Z (Z.of_nat n * _ - _)%Z)).
    2:{ apply inject_Z_nonzero. pose proof (ols_denominator_pos n ltac:(lia)) as P.
        unfold ols_denominator in P. lia. }
    unfold py_bind at 1.
    rewrite true_div_nonzero by (apply inject_Z_nonzero; lia).
    eexists; split; [reflexivity|].
    set (m := inject_Z (Z.of_nat n * c)).
    match goal with |- py_max 1 (py_min 10 (round1 ?X)) == _ => assert (HX : X == inject_Z c) end.
    { unfold m. setoid_replace (inject_Z 0) with 0 by reflexivity.
      rewrite inject_Z_mult. field. split; apply inject_Z_nonzero; [|lia].
      pose proof (ols_denominator_pos n ltac:(lia)) as P. unfold ols_denominator in P. lia. }
    pose proof (round1_int _ _ HX) as HR.
    rewrite clamp_id; [exact HR|]. rewrite HR. apply inject_Z_range, Hc.
Qed.

Lemma qsum_zero {A} (f : A -> Q) xs : (forall y, In y xs -> f y == 0) -> qsum (map f xs) == 0.
Proof.
  induction xs as [|x xs IH]; intro H; simpl; [reflexivity|].
  rewrite (H x (or_introl eq_refl)), IH; [reflexivity|]. intros y Hy. apply H. right. exact Hy.
Qed.

(** A constant history of at least five moods has zero variance, so calculate_prediction_confidence returns "High". *)
Theorem confidence_constant_high (c : Z) (n : nat) :
  (5 <= n)%nat -> calculate_prediction_confidence (repeat c n) = Ok "High".
Proof.
  intro Hn. unfold calculate_prediction_confidence. unfold py_len at 1. rewrite repeat_length.
  replace (Z.of_nat n <? 5)%Z with false by (symmetry; apply Z.ltb_ge; lia).
  assert (Hne : repeat c n <> []) by (destruct n; [lia|discriminate]).
  rewrite true_div_len by exact Hne. unfold py_bind at 1.
  rewrite true_div_len by exact Hne. unfold py_bind.
  set (m := inject_Z (py_sum (repeat c n)) / inject_Z (py_len (repeat c n))).
  assert (Hm : m == inject_Z c).
  { unfold m, py_len. rewrite repeat_length, py_sum_repeat. apply mean_repeat. lia. }
  assert (Hsq : fold_right Qplus 0 (map (fun x => (inject_Z x - m) * (inject_Z x - m)) (repeat c n)) == 0).
  { apply (qsum_zero (fun x => (inject_Z x - m) * (inject_Z x - m))).
    intros y Hy. apply repeat_spec in Hy. subst y. rewrite Hm. ring. }
  replace (Qlt_bool _ 1) with true; [reflexivity|].
  symmetry. apply Qlt_bool_iff. unfold Qdiv. rewrite Hsq, Qmult_0_l. reflexivity.
Qed.

Lemma In_insert_by_date x e l : In x (insert_by_date e l) <-> e = x \/ In x l.
Proof.
  induction l as [|e' l IH]; simpl; [tauto|].
  destruct (me_date e' <=? me_date e)%Z; simpl; rewrite ?IH; tauto.
Qed.

Lemma In_order_by_date x l : In x (order_by_date l) <-> In x l.
Proof.
  unfold order_by_date.
  assert (G : forall acc, In x (fold_left (fun acc e => insert_by_date e acc) l acc) <-> In x l \/ In x acc).
  { induction l as [|e l IH]; intro acc; simpl; [tauto|]. rewrite IH, In_insert_by_date. tauto. }
  rewrite G. simpl. tauto.
Qed.

Lemma In_week_recent_moods x entries user today :
  In x (week_recent_moods entries user today) <->
  In x entries /\ in_window user (today - 14) today x = true.
Proof. unfold week_recent_moods. rewrite In_order_by_date, filter_In. tauto. Qed.

Lemma map_const_repeat {A} (f : A -> Z) c l :
  (forall x, In x l -> f x = c) -> map f l = repeat c (List.length l).
Proof.
  induction l as [|x l IH]; intro H; simpl; [reflexivity|].
  rewrite (H x (or_introl eq_refl)), IH; [reflexivity|]. intros y Hy. apply H. right. exact Hy.
Qed.

Lemma last_repeat (c d : Z) n : (1 <= n)%nat -> last (repeat c n) d = c.
Proof.
  intro H. induction n as [|n IH]; [lia|]. destruct n as [|n]; [reflexivity|].
  transitivity (last (repeat c (S n)) d); [reflexivity|apply IH; lia].
Qed.

(** The regression slope is 0 when every value equals the mean. *)
Lemma regression_slope_flat vs avg s :
  (forall y, In y vs -> inject_Z y == avg) -> regression_slope vs avg = Ok s -> s == 0.
Proof.
  intros Hy H. unfold regression_slope in H.
  destruct (1 <? py_len vs)%Z; [|injection H as <-; reflexivity].
  unfold true_div at 1 in H. destruct (Qeq_bool _ 0); [discriminate|]. unfold py_bind in H.
  unfold true_div in H. destruct (Qeq_bool _ 0); [discriminate|]. injection H as <-.
  rewrite (qsum_zero (fun '(x, y) => (inject_Z x - _) * (inject_Z y - avg))).
  - unfold Qdiv. ring.
  - intros [x y] Hxy. apply in_combine_r in Hxy. rewrite (Hy y Hxy). ring.
Qed.

Lemma qsum_const l c : Forall (fun q => q == c) l -> qsum l == inject_Z (Z.of_nat (List.length l)) * c.
Proof.
  induction 1 as [|q l Hq _ IH]; [reflexivity|].
  unfold qsum; cbn [fold_right List.length]; fold (qsum l).
  rewrite Hq, IH, Nat2Z.inj_succ, <- Z.add_1_l, inject_Z_plus. ring.
Qed.

(** When the user has entries in the 14-day window and all of them have the same mood c in [1, 10], predict_next_week_mood forecasts c on each of the seven days, and the prediction label is positive for c >= 7, stable for 4 <= c < 7 and challenging below. *)
Theorem predict_next_week_mood_constant entries user today c :
  (1 <= c <= 10)%Z ->
  (exists e, In e entries /\ in_window user (today - 14) today e = true) ->
  (forall e, In e entries -> in_window user (today - 14) today e = true -> me_mood e = c) ->
  exists d fc, predict_next_week_mood entries user today = Ok d /\
    dict_get d "weekly_forecast" = Some (VList (map VFloat fc)) /\
    List.length fc = 7%nat /\ Forall (fun q => q == inject_Z c) fc /\
    dict_get d "prediction"
      = Some (VStr (if (7 <=? c)%Z then "positive"
                    else if (4 <=? c)%Z then "stable" else "challenging")).
Proof.
  intros Hc [e [He Hew]] Hall.
  assert (Hallw : forall x, In x (week_recent_moods entries user today) -> me_mood x = c).
  { intros x Hx. apply In_week_recent_moods in Hx as [Hx Hxw]. exact (Hall x Hx Hxw). }
  assert (Hne : week_recent_moods entries user today <> []).
  { intro E. pose proof (proj2 (In_week_recent_moods e entries user today) (conj He Hew)) as Hin.
    rewrite E in Hin. exact Hin. }
  unfold predict_next_week_mood.
  destruct (week_recent_moods entries user today) as [|e0 rest] eqn:Hw; [contradiction|].
  rewrite (map_const_repeat me_mood c (e0 :: rest) Hallw).
  set (N := List.length (e0 :: rest)).
  assert (HN : (1 <= N)%nat) by (unfold N; simpl; lia).
  assert (Hr : repeat c N <> []) by (destruct N; [lia|discriminate]).
  rewrite true_div_len by exact Hr. unfold py_bind at 1.
  set (m := inject_Z (py_sum (repeat c N)) / inject_Z (py_len (repeat c N))).
  assert (Hm : m == inject_Z c).
  { unfold m, py_len. rewrite repeat_length, py_sum_repeat. apply mean_repeat, HN. }
  destruct (regression_slope_ok (repeat c N) m) as [s Hs]. rewrite Hs. unfold py_bind at 1.
  assert (Hs0 : s == 0).
  { apply (regression_slope_flat (repeat c N) m); [|exact Hs].
    intros y Hy. apply repeat_spec in Hy. subst y. rewrite Hm. reflexivity. }
  assert (Hb : match repeat c N with [] => 5%Z | _ => last (repeat c N) 5%Z end = c)
    by (destruct N as [|N']; [lia|apply last_repeat; lia]).
  rewrite Hb.
  set (fc := map (forecast_day c s) (py_range 7)).
  assert (Hfc : Forall (fun q => q == inject_Z c) fc).
  { apply Forall_forall. intros q Hq. apply in_map_iff in Hq as [i [<- _]].
    unfold forecast_day. apply round1_int.
    rewrite clamp_id'; rewrite Hs0; [ring|].
    setoid_replace (inject_Z c + 0 * inject_Z (i + 1) * (1 # 10)) with (inject_Z c) by ring.
    apply inject_Z_range, Hc. }
  assert (Hfne : fc <> []) by discriminate.
  rewrite true_div_len by exact Hfne. unfold py_bind.
  assert (Hav : qsum fc / inject_Z (py_len fc) == inject_Z c).
  { rewrite (qsum_const fc _ Hfc). unfold py_len. field.
    change (List.length fc) with 7%nat. discriminate. }
  destruct (Qle_bool 7 (qsum fc / inject_Z (py_len fc))) eqn:E7;
    [apply Qle_bool_iff in E7|];
  [|destruct (Qle_bool 4 (qsum fc / inject_Z (py_len fc))) eqn:E4;
    [apply Qle_bool_iff in E4|]];
  (eexists; exists fc; split; [reflexivity|]; split; [reflexivity|];
   split; [reflexivity|]; split; [exact Hfc|]; simpl dict_get).
  - rewrite Hav in E7. change 7 with (inject_Z 7) in E7. rewrite <- Zle_Qle in E7.
    replace (7 <=? c)%Z with true by (symmetry; apply Z.leb_le; exact E7). reflexivity.
  - rewrite Hav in E4. change 4 with (inject_Z 4) in E4. rewrite <- Zle_Qle in E4.
    replace (4 <=? c)%Z with true by (symmetry; apply Z.leb_le; exact E4).
    replace (7 <=? c)%Z with false; [reflexivity|]. symmetry. apply Z.leb_gt.
    destruct (Z.le_gt_cases 7 c) as [H|H]; [|exact H]. exfalso.
    assert (Hq : 7 <= qsum fc / inject_Z (py_len fc)) by (rewrite Hav; rewrite Zle_Qle in H; exact H).
    apply Qle_bool_iff in Hq. congruence.
  - replace (7 <=? c)%Z with false.
    2:{ symmetry. apply Z.leb_gt. destruct (Z.le_gt_cases 7 c) as [H|H]; [|exact H]. exfalso.
        assert (Hq : 7 <= qsum fc / inject_Z (py_len fc)) by (rewrite Hav; rewrite Zle_Qle in H; exact H).
        apply Qle_bool_iff in Hq. congruence. }
    replace (4 <=? c)%Z with false; [reflexivity|].
    symmetry. apply Z.leb_gt. destruct (Z.le_gt_cases 4 c) as [H|H]; [|exact H]. exfalso.
    assert (Hq : 4 <= qsum fc / inject_Z (py_len fc)) by (rewrite Hav; rewrite Zle_Qle in H; exact H).
    apply Qle_bool_iff in Hq. congruence.
Qed.

Lemma streak_compare e1 e2 user today :
  (forall d, has_entry_on e1 user d = true -> has_entry_on e2 user d = true) ->
  (calculate_streak e1 user today <= calculate_streak e2 user today)%Z.
Proof.
  intro H.
  destruct (streak_loop_fuel e1 user today) as [j1 [R1 [A1 _]]].
  destruct (streak_loop_fuel e2 user today) as [j2 [R2 [_ N2]]].
  rewrite R1, R2. destruct (Nat.lt_ge_cases j2 j1) as [Hlt|Hge]; [|lia].
  specialize (H _ (A1 j2 Hlt)). congruence.
Qed.

Lemma has_entry_on_iff entries user d :
  has_entry_on entries user d = true <-> exists e, In e entries /\ me_user e = user /\ me_date e = d.
Proof.
  unfold has_entry_on. rewrite existsb_exists. split.
  - intros [e [Hin He]]. apply andb_true_iff in He as [Hu Hd].
    apply Nat.eqb_eq in Hu. apply Z.eqb_eq in Hd. eauto.
  - intros [e [Hin [Hu Hd]]]. exists e. split; [exact Hin|]. subst. rewrite Nat.eqb_refl, Z.eqb_refl. reflexivity.
Qed.

(** Adding mood entries never shortens the streak computed by calculate_streak. *)
Theorem calculate_streak_monotone entries entries' user today :
  incl entries entries' ->
  (calculate_streak entries user today <= calculate_streak entries' user today)%Z.
Proof.
  intro H. apply streak_compare. intros d Hd. apply has_entry_on_iff in Hd as [e [Hin He]].
  apply has_entry_on_iff. exists e. split; [apply H, Hin|exact He].
Qed.

(** calculate_streak depends only on the user's own entries: entries of other users do not change it. *)
Theorem calculate_streak_own_entries entries entries' user today :
  (forall e, me_user e = user -> (In e entries <-> In e entries')) ->
  calculate_streak entries user today = calculate_streak entries' user today.
Proof.
  intro H. apply Z.le_antisymm; apply streak_compare; intros d Hd;
    apply has_entry_on_iff in Hd as [e [Hin [Hu Hd]]]; apply has_entry_on_iff;
    exists e; (split; [apply (H e Hu), Hin || apply (proj2 (H e Hu)), Hin|auto]).
Qed.

(** The streak is between 0 and the number of entries of the user. *)
Theorem calculate_streak_bound entries user today :
  (0 <= calculate_streak entries user today <=
   Z.of_nat (List.length (filter (fun e => Nat.eqb (me_user e) user) entries)))%Z.
Proof.
  set (own := filter (fun e => Nat.eqb (me_user e) user) entries).
  assert (E : calculate_streak entries user today = calculate_streak own user today).
  { apply Z.le_antisymm; apply streak_compare; intros d Hd;
      apply has_entry_on_iff in Hd as [e [Hin [Hu Hd]]]; apply has_entry_on_iff;
      exists e; repeat split; auto; unfold own in *;
      [apply filter_In; rewrite Hu, Nat.eqb_refl; auto|apply filter_In in Hin; tauto]. }
  rewrite E. destruct (streak_loop_fuel own user today) as [j [R [A _]]].
  rewrite R. pose proof (streak_days_bound own user today j A). lia.
Qed.

Lemma In_existsb_str s l : In s l <-> existsb (String.eqb s) l = true.
Proof.
  rewrite existsb_exists. split.
  - intro H. exists s. split; [exact H|apply String.eqb_refl].
  - intros [x [Hx E]]. apply String.eqb_eq in E. subst. exact Hx.
Qed.

Ltac eval_existsb :=
  match goal with
  | |- existsb ?f ?l = true <-> _ =>
      let v := eval vm_compute in (existsb f l) in change (existsb f l) with v
  end.

(** generate_ai_recommendations suggests journaling exactly when the trend is not declining and fewer than five journal entries were written, and suggests the wellness games exactly when the trend is not declining and at least five were written. *)
Theorem recommendations_journal_and_games avg_mood trend journal_count :
  (In "Try journaling more frequently to process your emotions"
      (generate_ai_recommendations avg_mood trend journal_count)
   <-> trend <> "declining" /\ (journal_count < 5)%Z) /\
  (In "Engage with our wellness games for stress relief"
      (generate_ai_recommendations avg_mood trend journal_count)
   <-> trend <> "declining" /\ (5 <= journal_count)%Z).
Proof.
  unfold generate_ai_recommendations, bucket_recommendations.
  destruct (String.eqb trend "declining") eqn:Et;
    [apply String.eqb_eq in Et | apply String.eqb_neq in Et];
  destruct (journal_count <? 5)%Z eqn:Ej;
    [apply Z.ltb_lt in Ej | apply Z.ltb_ge in Ej | apply Z.ltb_lt in Ej | apply Z.ltb_ge in Ej];
  destruct (Qlt_bool avg_mood 4); try destruct (Qlt_bool avg_mood 6);
  split; rewrite In_existsb_str; eval_existsb;
  split; first [discriminate | intros [H1 H2]; first [contradiction | lia] | intros _; split; [exact Et|lia] | idtac].
Qed.

Lemma views_api_trend_of_slope s :
  exists r, Views.trend_of_slope s = (fst (Api.trend_of_slope s), snd (Api.trend_of_slope s), r).
Proof.
  unfold Views.trend_of_slope, Api.trend_of_slope.
  destruct (Qlt_bool (1 # 2) s); [|destruct (Qlt_bool s (-1 # 2))]; eexists; reflexivity.
Qed.

(** The dashboard and API versions of analyze_mood_trends both succeed on every history, and every key of the API record has the same value in the dashboard record. *)
Theorem analyze_variants_agree (l : list Z) :
  exists d d', Views.analyze_mood_trends l = Ok d /\ Api.analyze_mood_trends l = Ok d' /\
    forall k, In k (dict_keys d') -> dict_get d k = dict_get d' k.
Proof.
  destruct l as [|x xs].
  - do 2 eexists. split; [reflexivity|]. split; [reflexivity|].
    intros k _. reflexivity.
  - unfold Views.analyze_mood_trends, Api.analyze_mood_trends.
    rewrite !true_div_len by discriminate. unfold py_bind at 1 3.
    rewrite views_trend_slope, api_trend_slope. unfold py_bind.
    destruct (views_api_trend_of_slope (claimed_slope (x :: xs))) as [r ->].
    destruct (Api.trend_of_slope (claimed_slope (x :: xs))) as [t m]. simpl fst; simpl snd.
    destruct (Views.mood_level_of _) as [lv am].
    do 2 eexists. split; [reflexivity|]. split; [reflexivity|].
    intros k Hk. simpl in Hk.
    repeat (destruct Hk as [<-|Hk]; [reflexivity|]). contradiction.
Qed.

(** ai_mood_prediction returns no prediction for fewer than seven moods; otherwise it returns a record whose data_points is the number of recent moods used (at most 14) and whose predicted_mood lies in [1, 10]. *)
Theorem ai_mood_prediction_history (history : list Z) (journal_count : Z) :
  ((List.length history < 7)%nat /\
   ai_mood_prediction (ai_recent_moods history) journal_count = Ok None) \/
  ((7 <= List.length history)%nat /\
   exists d q, ai_mood_prediction (ai_recent_moods history) journal_count = Ok (Some d) /\
     dict_get d "data_points" = Some (VInt (Z.of_nat (Nat.min 14 (List.length history)))) /\
     dict_get d "predicted_mood" = Some (VFloat q) /\ 1 <= q <= 10).
Proof.
  assert (Hl : List.length (ai_recent_moods history) = Nat.min 14 (List.length history)).
  { unfold ai_recent_moods. rewrite length_firstn, length_rev. reflexivity. }
  set (rm := ai_recent_moods history) in *.
  destruct (Nat.lt_ge_cases (List.length history) 7) as [H|H]; [left|right]; split; try exact H.
  - unfold ai_mood_prediction.
    replace (7 <=? py_len rm)%Z with false by (symmetry; apply Z.leb_gt; unfold py_len; lia).
    reflexivity.
  - assert (H7 : (7 <= List.length rm)%nat) by lia.
    unfold ai_mood_prediction.
    replace (7 <=? py_len rm)%Z with true by (symmetry; apply Z.leb_le; unfold py_len; lia).
    assert (Hne : rm <> []) by (intros E; rewrite E in H7; simpl in H7; lia).
    unfold slice_to, slice_from. rewrite half_index.
    destruct (halves_nonempty rm ltac:(lia)) as [H1 H2].
    rewrite true_div_len by exact Hne. unfold py_bind at 1. cbv zeta.
    rewrite true_div_len by exact H1. unfold py_bind at 1.
    rewrite true_div_len by exact H2. unfold py_bind at 1.
    destruct (predict_next_mood_regression rm ltac:(lia)) as [p ->].
    destruct (confidence_ok rm) as [c ->].
    destruct (ai_trend_of _ _) as [t tm].
    do 2 eexists. split; [reflexivity|]. split.
    + unfold py_len. rewrite Hl. reflexivity.
    + split; [reflexivity|]. apply clamp_bounds.
Qed.

(** check_achievements leaves the mood entries unchanged and only appends at most two achievements of the user: Week Warrior worth 10 points or Monthly Master worth 50. *)
Theorem check_achievements_appends user st :
  mood_entries (check_achievements user st) = mood_entries st /\
  exists new, achievements (check_achievements user st) = app (achievements st) new /\
    (List.length new <= 2)%nat /\
    Forall (fun a => a_user a = user /\
                     ((a_title a = "Week Warrior" /\ a_points a = 10%Z) \/
                      (a_title a = "Monthly Master" /\ a_points a = 50%Z))) new.
Proof.
  split; [apply check_mood_entries|]. unfold check_achievements.
  destruct (_ && negb (achievement_exists st user "Week Warrior"));
  match goal with |- context [if ?c then _ else _] => destruct c end;
  unfold create_achievement; simpl achievements;
  [eexists; split; [rewrite <- app_assoc; reflexivity|]
  |eexists; split; [reflexivity|]
  |eexists; split; [reflexivity|]
  |exists []; split; [rewrite app_nil_r; reflexivity|]];
  (split; [simpl; lia|]); apply Forall_forall; intros a Ha; simpl in Ha;
  repeat destruct Ha as [<-|Ha]; try contradiction; cbn [a_user a_title a_points];
  (split; [reflexivity|]); first [left; split; reflexivity | right; split; reflexivity].
Qed.

Lemma exists_create_other st a user title :
  title_is user title a = false ->
  achievement_exists (create_achievement st a) user title = achievement_exists st user title.
Proof. intro H. rewrite !exists_count, count_create, H, Nat.add_0_r. reflexivity. Qed.

Lemma exists_check_other v user st title :
  v <> user ->
  achievement_exists (check_achievements v st) user title = achievement_exists st user title.
Proof.
  intro Hv.
  assert (T : forall t d p, title_is user title (mkAchievement v t d p) = false).
  { intros. unfold title_is. cbn [a_user]. apply Nat.eqb_neq in Hv.
    rewrite Hv. reflexivity. }
  unfold check_achievements.
  destruct (_ && negb (achievement_exists st v "Week Warrior"));
  match goal with |- context [if ?c then _ else _] => destruct c end;
  rewrite ?exists_create_other by apply T; reflexivity.
Qed.

Lemma user_count_log st e user :
  user_count (mkStore (app (mood_entries st) [e]) (achievements st)) user
  = (user_count st user + if Nat.eqb (me_user e) user then 1 else 0)%Z.
Proof.
  unfold user_count. cbn [mood_entries]. rewrite filter_app. unfold py_len.
  rewrite length_app. simpl. destruct (Nat.eqb (me_user e) user); simpl; lia.
Qed.

Lemma tracks_counts_log st e : tracks_counts st -> tracks_counts (apply_op st (LogMood e)).
Proof.
  intros [Ha Hc]. simpl apply_op.
  set (st0 := mkStore (app (mood_entries st) [e]) (achievements st)).
  assert (Hex0 : forall u t, achievement_exists st0 u t = achievement_exists st u t) by reflexivity.
  assert (Hcnt : forall u, user_count st0 u = (user_count st u + if Nat.eqb (me_user e) u then 1 else 0)%Z)
    by (intro u; apply user_count_log).
  split; [apply check_preserves; exact Ha|]. intro user.
  unfold user_count at 1 2. rewrite check_mood_entries. fold (user_count st0 user).
  rewrite Hcnt.
  destruct (Nat.eq_dec (me_user e) user) as [<-|Hne].
  - rewrite Nat.eqb_refl. set (v := me_user e) in *.
    destruct (Hc v) as [Hw Hm]. split.
    + destruct (7 <=? user_count st v + 1)%Z eqn:E7.
      * apply check_creates_week. fold (user_count st0 v). rewrite Hcnt, Nat.eqb_refl. exact E7.
      * unfold check_achievements. fold (user_count st0 v). rewrite Hcnt, Nat.eqb_refl, E7.
        replace (30 <=? user_count st v + 1)%Z with false
          by (symmetry; apply Z.leb_gt; apply Z.leb_gt in E7; lia).
        simpl andb. cbv iota. rewrite Hex0, Hw. apply Z.leb_gt in E7. apply Z.leb_gt. lia.
    + destruct (30 <=? user_count st v + 1)%Z eqn:E30.
      * apply check_creates_month. fold (user_count st0 v). rewrite Hcnt, Nat.eqb_refl. exact E30.
      * unfold check_achievements. fold (user_count st0 v). rewrite Hcnt, Nat.eqb_refl, E30.
        simpl andb. cbv iota.
        assert (Hm' : achievement_exists st0 v "Monthly Master" = false).
        { rewrite Hex0, Hm. apply Z.leb_gt. apply Z.leb_gt in E30. lia. }
        destruct (_ && _); [rewrite exists_create_other; [exact Hm'|]|exact Hm'].
        unfold title_is. cbn [a_user a_title]. rewrite Nat.eqb_refl. reflexivity.
  - replace (Nat.eqb (me_user e) user) with false by (symmetry; apply Nat.eqb_neq; exact Hne).
    rewrite Z.add_0_r, !exists_check_other by exact Hne. rewrite !Hex0. apply Hc.
Qed.

Lemma run_logs_entries es st :
  mood_entries (run_ops st (map LogMood es)) = app (mood_entries st) es.
Proof.
  revert st. induction es as [|e es IH]; intro st; [simpl; rewrite app_nil_r; reflexivity|].
  change (run_ops st (map LogMood (e :: es))) with (run_ops (apply_op st (LogMood e)) (map LogMood es)).
  rewrite IH. simpl apply_op. rewrite check_mood_entries. simpl. rewrite <- app_assoc. reflexivity.
Qed.

Lemma run_logs_tracks es st : tracks_counts st -> tracks_counts (run_ops st (map LogMood es)).
Proof.
  revert st. induction es as [|e es IH]; intros st H; [exact H|].
  simpl. apply (IH (apply_op st (LogMood e))), tracks_counts_log, H.
Qed.

(** Logging a sequence of mood entries from an empty store, with the achievement check after each entry, awards Week Warrior exactly once when the user has at least 7 entries (never otherwise), and Monthly Master exactly once when the user has at least 30. *)
Theorem achievements_follow_entry_counts (es : list MoodEntry) (user : nat) :
  count_achievements (run_ops (mkStore [] []) (map LogMood es)) user "Week Warrior"
    = (if 7 <=? List.length (filter (fun e => Nat.eqb (me_user e) user) es) then 1 else 0)%nat /\
  count_achievements (run_ops (mkStore [] []) (map LogMood es)) user "Monthly Master"
    = (if 30 <=? List.length (filter (fun e => Nat.eqb (me_user e) user) es) then 1 else 0)%nat.
Proof.
  assert (H0 : tracks_counts (mkStore [] [])) by (split; [intros u t; unfold count_achievements; simpl; lia|intro u; split; reflexivity]).
  destruct (run_logs_tracks es _ H0) as [Ha Hc].
  set (st := run_ops (mkStore [] []) (map LogMood es)) in *.
  assert (Hn : user_count st user = Z.of_nat (List.length (filter (fun e => Nat.eqb (me_user e) user) es))).
  { unfold user_count, st. rewrite run_logs_entries. reflexivity. }
  destruct (Hc user) as [Hw Hm]. rewrite Hn in Hw, Hm. rewrite exists_count in Hw, Hm.
  pose proof (Ha user "Week Warrior") as Aw. pose proof (Ha user "Monthly Master") as Am.
  set (n := List.length _) in *.
  split.
  - destruct (7 <=? n)%nat eqn:E.
    + apply Nat.leb_le in E. assert ((7 <=? Z.of_nat n)%Z = true) by (apply Z.leb_le; lia).
      rewrite H in Hw. apply Nat.ltb_lt in Hw. lia.
    + apply Nat.leb_gt in E. assert ((7 <=? Z.of_nat n)%Z = false) by (apply Z.leb_gt; lia).
      rewrite H in Hw. apply Nat.ltb_ge in Hw. lia.
  - destruct (30 <=? n)%nat eqn:E.
    + apply Nat.leb_le in E. assert ((30 <=? Z.of_nat n)%Z = true) by (apply Z.leb_le; lia).
      rewrite H in Hm. apply Nat.ltb_lt in Hm. lia.
    + apply Nat.leb_gt in E. assert ((30 <=? Z.of_nat n)%Z = false) by (apply Z.leb_gt; lia).
      rewrite H in Hm. apply Nat.ltb_ge in Hm. lia.
Qed.

(** doctor_required runs the view exactly for an authenticated doctor and patient_required exactly for an authenticated patient; an unauthenticated user is redirected to login by both, and no user passes both. *)
Theorem decorators_gate {R S} (f : RequestUser -> R) (g : RequestUser -> S) (user : RequestUser) :
  (doctor_required f user = Ran (f user) <->
   ru_is_authenticated user = true /\ ru_role user = "doctor") /\
  (patient_required g user = Ran (g user) <->
   ru_is_authenticated user = true /\ ru_role user = "patient") /\
  (ru_is_authenticated user = false ->
   exists m m', doctor_required f user = Redirect m "login" /\
                patient_required g user = Redirect m' "login") /\
  (forall r s, doctor_required f user = Ran r -> patient_required g user = Ran s -> False).
Proof.
  unfold doctor_required, patient_required.
  destruct (ru_is_authenticated user); simpl negb; cbv iota.
  - destruct (String.eqb (ru_role user) "doctor") eqn:Ed;
      [apply String.eqb_eq in Ed | apply String.eqb_neq in Ed];
    (destruct (String.eqb (ru_role user) "patient") eqn:Ep;
      [apply String.eqb_eq in Ep | apply String.eqb_neq in Ep]); simpl negb; cbv iota.
    + rewrite Ed in Ep. discriminate.
    + split; [tauto|]. split; [split; [discriminate|intros [_ H]; contradiction]|].
      split; [discriminate|]. intros r s _ H. discriminate.
    + split; [split; [discriminate|intros [_ H]; contradiction]|]. split; [tauto|].
      split; [discriminate|]. intros r s H. discriminate.
    + split; [split; [discriminate|intros [_ H]; contradiction]|].
      split; [split; [discriminate|intros [_ H]; contradiction]|].
      split; [discriminate|]. intros r s H. discriminate.
  - split; [split; [discriminate|intros [H _]; discriminate]|].
    split; [split; [discriminate|intros [H _]; discriminate]|].
    split; [intros _; do 2 eexists; split; reflexivity|]. intros r s H. discriminate.
Qed.

Lemma orm_get_found {A} (f : A -> bool) l a :
  orm_get (filter f l) = Found a -> In a l /\ f a = true.
Proof.
  unfold orm_get. intro H.
  destruct (filter f l) as [|x [|y rest]] eqn:E; try discriminate.
  injection H as <-. apply (filter_In f). rewrite E. left. reflexivity.
Qed.

Lemma patient_by_pid_found db pid p :
  get_patient_by_patient_id db pid = Found p ->
  In p (db_users db) /\ option_str_eqb (usr_patient_id p) pid = true /\ usr_role p = "patient".
Proof.
  intro H. apply orm_get_found in H as [Hin Hf]. apply andb_true_iff in Hf as [H1 H2].
  apply String.eqb_eq in H2. auto.
Qed.

Lemma patient_by_id_found db pid p :
  get_patient_by_id db pid = Found p ->
  In p (db_users db) /\ usr_id p = pid /\ usr_role p = "patient".
Proof.
  intro H. apply orm_get_found in H as [Hin Hf]. apply andb_true_iff in Hf as [H1 H2].
  apply Nat.eqb_eq in H1. apply String.eqb_eq in H2. auto.
Qed.

Lemma active_appended db doctor patient :
  active_assignment_exists
    (mkClinicDB (db_users db) (app (db_assignments db) [mkAssignment doctor patient true]) (db_notes db))
    doctor patient = true.
Proof.
  unfold active_assignment_exists. cbn [db_assignments]. rewrite existsb_app. simpl.
  rewrite !Nat.eqb_refl, orb_true_r. reflexivity.
Qed.

(** An assign_patient API response either leaves the store unchanged with status 404 or 400, or has status 201 and appends one active assignment of the found patient to the doctor; that patient is then among the doctor's assigned patients. *)
Theorem api_assign_patient_effect doctor patient_id db s text db' :
  api_assign_patient doctor patient_id db = Respond s text db' ->
  ((s = 404 \/ s = 400)%Z /\ db' = db) \/
  (s = 201%Z /\ exists p,
     get_patient_by_patient_id db patient_id = Found p /\
     assignment_pair_exists db (usr_id doctor) (usr_id p) = false /\
     db' = mkClinicDB (db_users db)
             (app (db_assignments db) [mkAssignment (usr_id doctor) (usr_id p) true]) (db_notes db) /\
     In p (assigned_patients db' (usr_id doctor))).
Proof.
  unfold api_assign_patient.
  destruct (get_patient_by_patient_id db patient_id) as [p| |] eqn:G; intro H; try discriminate.
  - destruct (active_assignment_exists db (usr_id doctor) (usr_id p)).
    + injection H as <- _ <-. left. auto.
    + unfold create_assignment in H.
      destruct (assignment_pair_exists db (usr_id doctor) (usr_id p)) eqn:P; [discriminate|].
      injection H as <- _ <-. right. split; [reflexivity|]. exists p.
      split; [reflexivity|]. split; [exact P|]. split; [reflexivity|].
      unfold assigned_patients. apply filter_In. cbn [db_users]. split.
      * exact (proj1 (patient_by_pid_found _ _ _ G)).
      * apply active_appended.
  - injection H as <- _ <-. left. auto.
Qed.

(** After a successful assignment, the same request again answers 400 (already assigned) and changes nothing. *)
Theorem api_assign_patient_twice doctor patient_id db text db' :
  api_assign_patient doctor patient_id db = Respond 201 text db' ->
  exists text', api_assign_patient doctor patient_id db' = Respond 400 text' db'.
Proof.
  intro H. destruct (api_assign_patient_effect _ _ _ _ _ _ H) as [[[E|E] _]|[_ [p [G [_ [-> Hin]]]]]];
    try discriminate.
  unfold api_assign_patient.
  assert (G' : get_patient_by_patient_id
                 (mkClinicDB (db_users db)
                    (app (db_assignments db) [mkAssignment (usr_id doctor) (usr_id p) true])
                    (db_notes db)) patient_id = Found p) by exact G.
  rewrite G', active_appended. eexists. reflexivity.
Qed.

(** When the only row of a doctor-patient pair is inactive, both the API and the dashboard assign_patient try to create a second row and raise the integrity error of the unique doctor-patient constraint. *)
Theorem assign_deactivated_raises doctor patient_id db p :
  get_patient_by_patient_id db patient_id = Found p ->
  In (mkAssignment (usr_id doctor) (usr_id p) false) (db_assignments db) ->
  active_assignment_exists db (usr_id doctor) (usr_id p) = false ->
  api_assign_patient doctor patient_id db = RaiseIntegrityError /\
  views_assign_patient true doctor patient_id db = RaiseIntegrityError.
Proof.
  intros G Hin Ha.
  assert (P : assignment_pair_exists db (usr_id doctor) (usr_id p) = true).
  { unfold assignment_pair_exists. apply existsb_exists.
    eexists; split; [exact Hin|]. cbn. rewrite !Nat.eqb_refl. reflexivity. }
  unfold api_assign_patient, views_assign_patient, create_assignment.
  rewrite G, Ha, P. split; reflexivity.
Qed.

(** On a POST, the dashboard assign_patient changes the store exactly as the API assign_patient does and renders with status 200, and the two raise the same exceptions. *)
Theorem assign_patient_views_api_agree doctor patient_id db :
  match api_assign_patient doctor patient_id db, views_assign_patient true doctor patient_id db with
  | Respond _ _ db1, Respond s _ db2 => db1 = db2 /\ s = 200%Z
  | RaiseIntegrityError, RaiseIntegrityError => True
  | RaiseMultipleObjectsReturned, RaiseMultipleObjectsReturned => True
  | _, _ => False
  end.
Proof.
  unfold api_assign_patient, views_assign_patient. simpl negb. cbv iota.
  destruct (get_patient_by_patient_id db patient_id) as [p| |]; auto.
  destruct (active_assignment_exists db (usr_id doctor) (usr_id p)); auto.
  destruct (create_assignment db (usr_id doctor) (usr_id p)); auto.
Qed.

(** patient_details only reports on a user who is in the store, has the requested id and the patient role, and is actively assigned to the requesting doctor. *)
Theorem patient_details_gate_sound doctor patient_id db p :
  patient_details_gate doctor patient_id db = Proceed p ->
  In p (db_users db) /\ usr_id p = patient_id /\ usr_role p = "patient" /\
  active_assignment_exists db (usr_id doctor) patient_id = true.
Proof.
  unfold patient_details_gate.
  destruct (get_patient_by_id db patient_id) as [q| |] eqn:G; intro H; try discriminate.
  destruct (active_assignment_exists db (usr_id doctor) (usr_id q)) eqn:A; simpl in H; [|discriminate].
  injection H as <-. destruct (patient_by_id_found _ _ _ G) as [Hin [Hid Hr]].
  rewrite <- Hid. auto.
Qed.

(** create_for_patient changes the store only when it answers 201, which requires the user to be a doctor actively assigned to the patient; it then appends exactly the new note. *)
Theorem create_for_patient_guarded user patient_id valid note visible db s text db' :
  create_for_patient user patient_id valid note visible db = Respond s text db' ->
  (s <> 201%Z /\ db' = db) \/
  (s = 201%Z /\ usr_role user = "doctor" /\
   active_assignment_exists db (usr_id user) patient_id = true /\
   db' = mkClinicDB (db_users db) (db_assignments db)
           (app (db_notes db) [mkNote patient_id (usr_id user) note visible])).
Proof.
  unfold create_for_patient.
  destruct (String.eqb (usr_role user) "doctor") eqn:Ed; simpl negb; cbv iota;
    [|intro H; injection H as <- _ <-; left; split; [discriminate|reflexivity]].
  apply String.eqb_eq in Ed.
  destruct (get_patient_by_id db patient_id) as [p| |] eqn:G; intro H; try discriminate;
    [|injection H as <- _ <-; left; split; [discriminate|reflexivity]].
  destruct (patient_by_id_found _ _ _ G) as [_ [Hid _]].
  rewrite Hid in H.
  destruct (active_assignment_exists db (usr_id user) patient_id) eqn:A; simpl negb in H; cbv iota in H;
    [|injection H as <- _ <-; left; split; [discriminate|reflexivity]].
  destruct valid; injection H as <- _ <-; [right|left; split; [discriminate|reflexivity]].
  auto.
Qed.

(** The dashboard add_doctor_note adds a note for any patient, even one not assigned to the doctor, whereas the API create_for_patient refuses the same note with 403. *)
Theorem add_doctor_note_skips_assignment doctor patient_id note is_visible_to_patient visible db p :
  get_patient_by_id db patient_id = Found p ->
  usr_role doctor = "doctor" ->
  active_assignment_exists db (usr_id doctor) patient_id = false ->
  add_doctor_note doctor patient_id (Some note) is_visible_to_patient db
    = Respond 302 "Note added successfully!"
        (mkClinicDB (db_users db) (db_assignments db)
           (app (db_notes db)
              [mkNote patient_id (usr_id doctor) note
                 (match is_visible_to_patient with Some v => String.eqb v "on" | None => false end)])) /\
  create_for_patient doctor patient_id true note visible db
    = Respond 403 "You are not assigned to this patient" db.
Proof.
  intros G Hd A. destruct (patient_by_id_found _ _ _ G) as [_ [Hid _]].
  unfold add_doctor_note, create_for_patient. rewrite G, Hd, Hid, A. split; reflexivity.
Qed.

(** A note that create_for_patient stores (answer 201) is listed by
    get_queryset for the doctor who wrote it, and for the patient exactly when
    it was marked visible. *)
Theorem create_for_patient_then_listed user patient_id note visible db text db' p :
  create_for_patient user patient_id true note visible db = Respond 201 text db' ->
  usr_id p = patient_id -> usr_role p <> "doctor" ->
  In (mkNote patient_id (usr_id user) note visible) (note_queryset user db') /\
  (In (mkNote patient_id (usr_id user) note visible) (note_queryset p db') <-> visible = true).
Proof.
  intros H Hp Hr. unfold create_for_patient in H.
  destruct (String.eqb (usr_role user) "doctor") eqn:Ed; [|discriminate H]. simpl in H.
  destruct (get_patient_by_id db patient_id) as [pt| |] eqn:Eg; try discriminate H.
  destruct (active_assignment_exists db (usr_id user) (usr_id pt)); [|discriminate H].
  simpl in H. injection H as _ <-.
  apply patient_by_id_found in Eg as [_ [Hid _]]. rewrite Hid.
  assert (Hin : In (mkNote patient_id (usr_id user) note visible)
                   (db_notes db ++ [mkNote patient_id (usr_id user) note visible]))
    by (apply in_or_app; right; left; reflexivity).
  unfold note_queryset. cbn [db_notes]. split.
  - rewrite Ed. apply filter_In. split; [exact Hin|]. cbn. apply Nat.eqb_refl.
  - replace (String.eqb (usr_role p) "doctor") with false
      by (symmetry; apply String.eqb_neq; exact Hr).
    rewrite filter_In. cbn [n_patient n_is_visible_to_patient]. rewrite Hp, Nat.eqb_refl. simpl.
    tauto.
Qed.

Lemma In_insert_by_date_desc x e l : In x (insert_by_date_desc e l) <-> e = x \/ In x l.
Proof.
  induction l as [|e' l IH]; simpl; [tauto|].
  destruct (me_date e <=? me_date e')%Z; simpl; rewrite ?IH; tauto.
Qed.

Lemma In_order_by_date_desc x l : In x (order_by_date_desc l) <-> In x l.
Proof.
  unfold order_by_date_desc.
  assert (G : forall acc, In x (fold_left (fun acc e => insert_by_date_desc e acc) l acc)
                          <-> In x l \/ In x acc).
  { induction l as [|e l IH]; intro acc; simpl; [tauto|]. rewrite IH, In_insert_by_date_desc. tauto. }
  rewrite G. simpl. tauto.
Qed.

Lemma In_firstn_l {A} n (l : list A) x : In x (firstn n l) -> In x l.
Proof. intro H. rewrite <- (firstn_skipn n l). apply in_or_app. left. exact H. Qed.

Lemma firstn_missing {A} n (l : list A) x :
  In x l -> ~ In x (firstn n l) -> List.length (firstn n l) = n.
Proof.
  intros H1 H2. rewrite length_firstn.
  destruct (Nat.le_gt_cases (List.length l) n) as [H|H]; [|lia].
  rewrite firstn_all2 in H2 by exact H. contradiction.
Qed.

(** The doctor dashboard shows at most 20 recent entries, each one of an actively assigned patient; an entry of an actively assigned patient is shown unless 20 entries are already shown. *)
Theorem doctor_recent_entries_assigned db entries doctor :
  (List.length (doctor_recent_entries db entries doctor) <= 20)%nat /\
  (forall e, In e (doctor_recent_entries db entries doctor) ->
     In e entries /\ In doctor (get_visible_doctors db e)) /\
  (forall e u, In e entries -> In u (db_users db) -> usr_id u = me_user e ->
     active_assignment_exists db doctor (me_user e) = true ->
     In e (doctor_recent_entries db entries doctor) \/
     List.length (doctor_recent_entries db entries doctor) = 20%nat).
Proof.
  unfold doctor_recent_entries. split; [|split].
  - rewrite length_firstn. lia.
  - intros e He. apply In_firstn_l in He. apply In_order_by_date_desc, filter_In in He as [Hin Hx].
    split; [exact Hin|]. apply existsb_exists in Hx as [u [Hu Hid]].
    unfold assigned_patients in Hu. apply filter_In in Hu as [_ Ha].
    apply Nat.eqb_eq in Hid. rewrite Hid in Ha.
    unfold active_assignment_exists in Ha. apply existsb_exists in Ha as [a [Hain Ha]].
    apply andb_true_iff in Ha as [Ha Hact]. apply andb_true_iff in Ha as [Hd Hp].
    apply Nat.eqb_eq in Hd. apply Nat.eqb_eq in Hp.
    unfold get_visible_doctors. apply in_map_iff. exists a. split; [exact Hd|].
    apply filter_In. split; [exact Hain|]. rewrite Hp, Nat.eqb_refl, Hact. reflexivity.
  - intros e u He Hu Hid Ha.
    assert (D : forall x y : MoodEntry, {x = y} + {x <> y})
      by (decide equality; first [apply Z.eq_dec | apply Nat.eq_dec]).
    set (sel := order_by_date_desc _).
    destruct (in_dec D e (firstn 20 sel)) as [Hs|Hs]; [left; exact Hs|right].
    apply (firstn_missing 20 sel e); [|exact Hs].
    apply In_order_by_date_desc, filter_In. split; [exact He|].
    apply existsb_exists. exists u. split; [|rewrite Hid; apply Nat.eqb_refl].
    unfold assigned_patients. apply filter_In. split; [exact Hu|]. rewrite Hid. exact Ha.
Qed.

Lemma option_str_eqb_iff o s : option_str_eqb o s = true <-> o = Some s.
Proof.
  destruct o as [s'|]; simpl; [rewrite String.eqb_eq; split; congruence|split; discriminate].
Qed.

(** generate_patient_id only returns a candidate id that no existing user holds. *)
Theorem generate_patient_id_fresh candidates users pid :
  generate_patient_id candidates users = Some pid ->
  In pid candidates /\ forall u, In u users -> usr_patient_id u <> Some pid.
Proof.
  induction candidates as [|c cs IH]; simpl; [discriminate|].
  destruct (existsb (fun u => option_str_eqb (usr_patient_id u) c) users) eqn:E; intro H.
  - destruct (IH H) as [Hin Hf]. auto.
  - injection H as <-. split; [left; reflexivity|]. intros u Hu Hp.
    assert (existsb (fun u => option_str_eqb (usr_patient_id u) c) users = true)
      by (apply existsb_exists; exists u; split; [exact Hu|apply option_str_eqb_iff, Hp]).
    congruence.
Qed.

(** Saving a new patient without an id stores it with the freshly generated id. *)
Theorem save_new_patient_gets_fresh_id candidates users u pid :
  usr_role u = "patient" ->
  (usr_patient_id u = None \/ usr_patient_id u = Some "") ->
  generate_patient_id candidates users = Some pid ->
  save_new_user candidates users u
    = Saved (app users [mkUser (usr_id u) (usr_username u) (usr_role u) (Some pid)]) /\
  forall v, In v users -> usr_patient_id v <> Some pid.
Proof.
  intros Hr Hp G. pose proof (generate_patient_id_fresh _ _ _ G) as [_ Hf].
  split; [|exact Hf].
  unfold save_new_user. rewrite Hr, String.eqb_refl. simpl andb.
  replace (match usr_patient_id u with None => true | Some s => String.eqb s "" end) with true
    by (destruct Hp as [-> | ->]; reflexivity).
  rewrite G. cbn [usr_patient_id].
  destruct (existsb (fun v => option_str_eqb (usr_patient_id v) pid) users) eqn:E; [|reflexivity].
  apply existsb_exists in E as [v [Hv E]]. apply option_str_eqb_iff in E.
  exfalso. exact (Hf v Hv E).
Qed.

Lemma patient_ids_app a b : patient_ids (app a b) = app (patient_ids a) (patient_ids b).
Proof. unfold patient_ids. apply flat_map_app. Qed.

Lemma In_patient_ids p users : In p (patient_ids users) <-> exists v, In v users /\ usr_patient_id v = Some p.
Proof.
  unfold patient_ids. rewrite in_flat_map. split.
  - intros [v [Hv Hp]]. exists v. split; [exact Hv|].
    destruct (usr_patient_id v); simpl in Hp; [destruct Hp as [<-|[]]; reflexivity|contradiction].
  - intros [v [Hv Hp]]. exists v. split; [exact Hv|]. rewrite Hp. left. reflexivity.
Qed.

(** Saving a new user keeps the patient ids of the stored users pairwise distinct. *)
Theorem save_new_user_keeps_ids_unique candidates users u users' :
  NoDup (patient_ids users) ->
  save_new_user candidates users u = Saved users' ->
  NoDup (patient_ids users').
Proof.
  intros Hnd H. unfold save_new_user in H.
  cbv zeta in H.
  destruct (if String.eqb (usr_role u) "patient" &&
               match usr_patient_id u with None => true | Some s => String.eqb s "" end
            then match generate_patient_id candidates users with
                 | Some pid => Some (mkUser (usr_id u) (usr_username u) (usr_role u) (Some pid))
                 | None => None
                 end
            else Some u) as [w|]; [|discriminate].
  assert (Happ : forall w, NoDup (patient_ids users) ->
            (forall p, usr_patient_id w = Some p -> ~ In p (patient_ids users)) ->
            NoDup (patient_ids (app users [w]))).
  { intros w' Hn Hw. rewrite patient_ids_app. unfold patient_ids at 2. simpl.
    destruct (usr_patient_id w') as [p|] eqn:Ep; simpl; rewrite ?app_nil_r; [|exact Hn].
    apply NoDup_app; [exact Hn|constructor; [intros []|constructor]|].
    intros x Hx [Ex|[]]. subst x. exact (Hw p eq_refl Hx). }
  destruct (usr_patient_id w) as [p|] eqn:Ep.
  - destruct (existsb (fun v => option_str_eqb (usr_patient_id v) p) users) eqn:E; [discriminate|].
    injection H as <-. apply Happ; [exact Hnd|]. intros q Hq Hin. rewrite Ep in Hq. injection Hq as <-.
    apply In_patient_ids in Hin as [v [Hv Hvp]].
    assert (existsb (fun v => option_str_eqb (usr_patient_id v) p) users = true)
      by (apply existsb_exists; exists v; split; [exact Hv|apply option_str_eqb_iff, Hvp]).
    congruence.
  - injection H as <-. apply Happ; [exact Hnd|]. intros q Hq. congruence.
Qed.

Lemma py_int_of_int z : (0 <= z)%Z -> py_int (inject_Z z) = z.
Proof.
  intro H. unfold py_int.
  replace (Qle_bool 0 (inject_Z z)) with true
    by (symmetry; apply Qle_bool_iff; change 0 with (inject_Z 0); rewrite <- Zle_Qle; exact H).
  apply Qfloor_Z.
Qed.

Lemma py_int_range q : 1 <= q <= 10 -> (10 <= py_int (q * 10) <= 100)%Z.
Proof.
  intros [H1 H2]. unfold py_int.
  replace (Qle_bool 0 (q * 10)) with true by (symmetry; apply Qle_bool_iff; lra).
  split.
  - assert (Hl : (Qfloor (inject_Z 10) <= Qfloor (q * 10))%Z)
      by (apply Qfloor_resp_le; change (inject_Z 10) with (10 # 1); lra).
    rewrite Qfloor_Z in Hl. exact Hl.
  - assert (Hu : (Qfloor (q * 10) <= Qfloor (inject_Z 100))%Z)
      by (apply Qfloor_resp_le; change (inject_Z 100) with (100 # 1); lra).
    rewrite Qfloor_Z in Hu. exact Hu.
Qed.

(** The average mood shown on the dashboards is 0 (percentage 0) without entries, and between 1 and 10 (percentage between 10 and 100) when all moods are in [1, 10]. *)
Theorem stats_avg_mood_bounds entries user :
  (user_moods entries user = [] ->
   stats_avg_mood entries user == 0 /\ avg_mood_percentage entries user = 0%Z) /\
  (user_moods entries user <> [] ->
   Forall (fun m => 1 <= m <= 10)%Z (user_moods entries user) ->
   1 <= stats_avg_mood entries user <= 10 /\
   (10 <= avg_mood_percentage entries user <= 100)%Z).
Proof.
  unfold avg_mood_percentage, stats_avg_mood. split.
  - intro H. rewrite H. split; reflexivity.
  - intros Hne Hr.
    assert (Hm : 1 <= (match user_moods entries user with
                       | [] => 0
                       | ms => inject_Z (py_sum ms) / inject_Z (py_len ms)
                       end) <= 10).
    { destruct (user_moods entries user) as [|x xs]; [contradiction|]. apply mean_bounds; assumption. }
    pose proof (round1_bounds _ Hm) as Hb. split; [exact Hb|]. apply py_int_range, Hb.
Qed.

Lemma In_insert_uniq x a l : In x (insert_uniq a l) <-> a = x \/ In x l.
Proof.
  induction l as [|y l IH]; simpl; [tauto|].
  destruct (a <? y)%Z; simpl; [tauto|].
  destruct (a =? y)%Z eqn:E; simpl; [apply Z.eqb_eq in E; subst; tauto|]. rewrite IH. tauto.
Qed.

Lemma In_distinct_sorted x l : In x (distinct_sorted l) <-> In x l.
Proof.
  unfold distinct_sorted. induction l as [|a l IH]; simpl; [tauto|].
  rewrite In_insert_uniq, IH. tauto.
Qed.

Lemma insert_uniq_sorted a l : StronglySorted Z.lt l -> StronglySorted Z.lt (insert_uniq a l).
Proof.
  induction 1 as [|y l Hl IH Hy]; simpl; [repeat constructor|].
  destruct (a <? y)%Z eqn:E1; [apply Z.ltb_lt in E1|].
  - constructor; [constructor; assumption|]. constructor; [exact E1|].
    eapply Forall_impl; [|exact Hy]. intros z Hz. lia.
  - destruct (a =? y)%Z eqn:E2; [constructor; assumption|].
    apply Z.ltb_ge in E1. apply Z.eqb_neq in E2.
    constructor; [exact IH|]. apply Forall_forall. intros z Hz. apply In_insert_uniq in Hz as [<-|Hz].
    + lia.
    + rewrite Forall_forall in Hy. apply Hy, Hz.
Qed.

Lemma distinct_sorted_sorted l : StronglySorted Z.lt (distinct_sorted l).
Proof.
  unfold distinct_sorted. induction l as [|a l IH]; simpl; [constructor|].
  apply insert_uniq_sorted, IH.
Qed.

Lemma strongly_sorted_nodup l : StronglySorted Z.lt l -> NoDup l.
Proof.
  induction 1 as [|y l _ IH Hy]; constructor; [|exact IH].
  intro Hin. rewrite Forall_forall in Hy. specialize (Hy y Hin). lia.
Qed.

Lemma count_z_cons l x k : count_z (x :: l) k = ((if Z.eqb k x then 1 else 0) + count_z l k)%nat.
Proof. unfold count_z. simpl. destruct (Z.eqb k x); reflexivity. Qed.

Lemma sum_indicator D x :
  NoDup D -> In x D -> list_sum (map (fun k => if Z.eqb k x then 1%nat else 0%nat) D) = 1%nat.
Proof.
  induction 1 as [|k D Hk Hnd IH]; [intros []|]. intros [->|Hx]; simpl.
  - rewrite Z.eqb_refl. f_equal.
    clear IH. induction D as [|k' D IHD]; [reflexivity|]. simpl.
    destruct (Z.eqb k' x) eqn:E; [apply Z.eqb_eq in E; subst; exfalso; apply Hk; left; reflexivity|].
    apply IHD; [intro H; apply Hk; right; exact H|inversion Hnd; assumption].
  - destruct (Z.eqb k x) eqn:E; [apply Z.eqb_eq in E; subst; contradiction|]. apply IH, Hx.
Qed.

Lemma sum_counts D l :
  NoDup D -> (forall x, In x l -> In x D) ->
  list_sum (map (count_z l) D) = List.length l.
Proof.
  intros Hnd. induction l as [|x l IH]; intro Hin.
  - simpl. unfold count_z. simpl. clear Hnd Hin. induction D; simpl; auto.
  - assert (E : map (count_z (x :: l)) D
                = map (fun k => ((if Z.eqb k x then 1 else 0) + count_z l k)%nat) D)
      by (apply map_ext; intro; apply count_z_cons).
    rewrite E.
    assert (Split : forall (f g : Z -> nat) D',
              list_sum (map (fun k => (f k + g k)%nat) D') = (list_sum (map f D') + list_sum (map g D'))%nat)
      by (intros f g D'; induction D' as [|k D' IHD]; simpl; [reflexivity|]; rewrite IHD; lia).
    rewrite (Split (fun k => if Z.eqb k x then 1%nat else 0%nat) (count_z l)).
    rewrite sum_indicator by (auto; apply Hin; left; reflexivity).
    rewrite IH by (intros y Hy; apply Hin; right; exact Hy). reflexivity.
Qed.

(** The mood distribution lists each distinct mood of the user once, in increasing order, with a positive count; the counts add up to the number of entries. *)
Theorem mood_distribution_counts entries user :
  list_sum (map snd (mood_distribution entries user)) = List.length (user_moods entries user) /\
  StronglySorted Z.lt (map fst (mood_distribution entries user)) /\
  (forall m c, In (m, c) (mood_distribution entries user) ->
     In m (user_moods entries user) /\ (1 <= c)%nat) /\
  (forall m, In m (user_moods entries user) -> In m (map fst (mood_distribution entries user))).
Proof.
  unfold mood_distribution. cbv zeta. set (ms := user_moods entries user).
  assert (Hfst : map fst (map (fun m => (m, count_z ms m)) (distinct_sorted ms)) = distinct_sorted ms)
    by (rewrite map_map; apply map_id).
  rewrite Hfst.
  pose proof (distinct_sorted_sorted ms) as Hs.
  split; [|split; [exact Hs|split]].
  - rewrite map_map. simpl. apply sum_counts; [apply strongly_sorted_nodup, Hs|].
    intros x Hx. apply In_distinct_sorted, Hx.
  - intros m c Hin. apply in_map_iff in Hin as [k [Ek Hk]]. injection Ek as <- <-.
    apply (proj1 (In_distinct_sorted _ _)) in Hk. split; [exact Hk|].
    unfold count_z. destruct (filter (Z.eqb k) ms) eqn:F; simpl; [|lia].
    assert (In k (filter (Z.eqb k) ms)) by (apply filter_In; split; [exact Hk|apply Z.eqb_refl]).
    rewrite F in H. contradiction.
  - intros m Hm. apply (proj2 (In_distinct_sorted _ _)), Hm.
Qed.

(** Every day of the weekly forecast gets an integer percentage between 10 and 100. *)
Theorem forecast_percentages_in_range entries user today :
  exists d ps, predict_next_week_mood entries user today = Ok d /\
    weekly_forecast_with_percentages d = Some ps /\ List.length ps = 7%nat /\
    Forall (fun '(_, p) => exists z, p = Some z /\ (10 <= z <= 100)%Z) ps.
Proof.
  destruct (predict_next_week_mood_shape entries user today) as [[_ H]|[b [s [d [H Hd]]]]].
  - rewrite H. do 2 eexists. split; [reflexivity|]. split; [reflexivity|]. split; [reflexivity|].
    repeat constructor; eexists; (split; [reflexivity|]); lia.
  - rewrite H. do 2 eexists. split; [reflexivity|].
    unfold weekly_forecast_with_percentages. rewrite Hd. split; [reflexivity|].
    rewrite !length_map, py_range_length. split; [reflexivity|].
    apply Forall_map. apply Forall_map. pose proof (forecast_in_range b s) as Hr.
    apply Forall_map in Hr. eapply Forall_impl; [|exact Hr].
    intros i Hi. eexists. split; [reflexivity|]. apply py_int_range, Hi.
Qed.

(** ** Concrete instances of the properties above *)

Definition clinic_doctor : UserRow := mkUser 1 "dr" "doctor" None.
Definition clinic_patient : UserRow := mkUser 2 "pat" "patient" (Some "AB12CD34").
Definition clinic_db : ClinicDB := mkClinicDB [clinic_doctor; clinic_patient] [] [].
Definition clinic_db_assigned : ClinicDB :=
  mkClinicDB [clinic_doctor; clinic_patient] [mkAssignment 1 2 true] [].
Definition clinic_db_deactivated : ClinicDB :=
  mkClinicDB [clinic_doctor; clinic_patient] [mkAssignment 1 2 false] [].

Lemma predict_next_mood_constant_witness :
  exists v, predict_next_mood (repeat 7%Z 3) = Ok v /\ v == inject_Z 7.
Proof. apply (predict_next_mood_constant 7 3); lia. Defined.

Lemma confidence_constant_high_witness :
  calculate_prediction_confidence (repeat 4%Z 6) = Ok "High".
Proof. apply (confidence_constant_high 4 6). lia. Defined.

Lemma predict_next_week_mood_constant_witness :
  exists d fc,
    predict_next_week_mood [mkMoodEntry 1 8 95; mkMoodEntry 1 8 100; mkMoodEntry 2 3 99] 1 100
      = Ok d /\
    dict_get d "weekly_forecast" = Some (VList (map VFloat fc)) /\
    List.length fc = 7%nat /\ Forall (fun q => q == inject_Z 8) fc /\
    dict_get d "prediction" = Some (VStr "positive").
Proof.
  apply (predict_next_week_mood_constant
           [mkMoodEntry 1 8 95; mkMoodEntry 1 8 100; mkMoodEntry 2 3 99] 1 100 8).
  - lia.
  - exists (mkMoodEntry 1 8 95). split; [left; reflexivity|reflexivity].
  - intros e He Hw. simpl in He.
    destruct He as [<-|[<-|[<-|[]]]]; [reflexivity|reflexivity|discriminate Hw].
Defined.

Lemma calculate_streak_monotone_witness :
  (calculate_streak [mkMoodEntry 1 5 100] 1 100
   <= calculate_streak [mkMoodEntry 1 5 100; mkMoodEntry 1 6 99] 1 100)%Z.
Proof.
  apply calculate_streak_monotone. intros x Hx. simpl in *. tauto.
Defined.

Lemma calculate_streak_own_entries_witness :
  calculate_streak [mkMoodEntry 1 5 100] 1 100
  = calculate_streak [mkMoodEntry 1 5 100; mkMoodEntry 2 6 99] 1 100.
Proof.
  apply calculate_streak_own_entries. intros e He. simpl. split; [tauto|].
  intros [H|[H|[]]]; [left; exact H|]. subst e. discriminate He.
Defined.

Lemma api_assign_patient_effect_witness :
  ((201 = 404 \/ 201 = 400)%Z /\ clinic_db_assigned = clinic_db) \/
  (201%Z = 201%Z /\ exists p,
     get_patient_by_patient_id clinic_db "AB12CD34" = Found p /\
     assignment_pair_exists clinic_db (usr_id clinic_doctor) (usr_id p) = false /\
     clinic_db_assigned = mkClinicDB (db_users clinic_db)
             (app (db_assignments clinic_db) [mkAssignment (usr_id clinic_doctor) (usr_id p) true])
             (db_notes clinic_db) /\
     In p (assigned_patients clinic_db_assigned (usr_id clinic_doctor))).
Proof.
  apply (api_assign_patient_effect clinic_doctor "AB12CD34" clinic_db 201
           "Successfully assigned patient pat (ID: AB12CD34)").
  vm_compute. reflexivity.
Defined.

Lemma api_assign_patient_twice_witness :
  exists text', api_assign_patient clinic_doctor "AB12CD34" clinic_db_assigned
                = Respond 400 text' clinic_db_assigned.
Proof.
  apply (api_assign_patient_twice clinic_doctor "AB12CD34" clinic_db
           "Successfully assigned patient pat (ID: AB12CD34)").
  vm_compute. reflexivity.
Defined.

Lemma assign_deactivated_raises_witness :
  api_assign_patient clinic_doctor "AB12CD34" clinic_db_deactivated = RaiseIntegrityError /\
  views_assign_patient true clinic_doctor "AB12CD34" clinic_db_deactivated = RaiseIntegrityError.
Proof.
  apply (assign_deactivated_raises clinic_doctor "AB12CD34" clinic_db_deactivated clinic_patient).
  - vm_compute. reflexivity.
  - left. reflexivity.
  - vm_compute. reflexivity.
Defined.

Lemma patient_details_gate_sound_witness :
  In clinic_patient (db_users clinic_db_assigned) /\ usr_id clinic_patient = 2%nat /\
  usr_role clinic_patient = "patient" /\
  active_assignment_exists clinic_db_assigned (usr_id clinic_doctor) 2 = true.
Proof.
  apply (patient_details_gate_sound clinic_doctor 2 clinic_db_assigned clinic_patient).
  vm_compute. reflexivity.
Defined.

Lemma create_for_patient_guarded_witness :
  ((201 <> 201)%Z /\
   mkClinicDB (db_users clinic_db_assigned) (db_assignments clinic_db_assigned)
     [mkNote 2 1 "Keep going" true] = clinic_db_assigned) \/
  (201%Z = 201%Z /\ usr_role clinic_doctor = "doctor" /\
   active_assignment_exists clinic_db_assigned (usr_id clinic_doctor) 2 = true /\
   mkClinicDB (db_users clinic_db_assigned) (db_assignments clinic_db_assigned)
     [mkNote 2 1 "Keep going" true]
   = mkClinicDB (db_users clinic_db_assigned) (db_assignments clinic_db_assigned)
       (app (db_notes clinic_db_assigned) [mkNote 2 (usr_id clinic_doctor) "Keep going" true])).
Proof.
  apply (create_for_patient_guarded clinic_doctor 2 true "Keep going" true clinic_db_assigned
           201 "Keep going").
  vm_compute. reflexivity.
Defined.

Lemma add_doctor_note_skips_assignment_witness :
  add_doctor_note clinic_doctor 2 (Some "Keep going") (Some "on") clinic_db
    = Respond 302 "Note added successfully!"
        (mkClinicDB (db_users clinic_db) (db_assignments clinic_db)
           (app (db_notes clinic_db)
              [mkNote 2 (usr_id clinic_doctor) "Keep going"
                 (match Some "on" with Some v => String.eqb v "on" | None => false end)])) /\
  create_for_patient clinic_doctor 2 true "Keep going" true clinic_db
    = Respond 403 "You are not assigned to this patient" clinic_db.
Proof.
  apply (add_doctor_note_skips_assignment clinic_doctor 2 "Keep going" (Some "on") true
           clinic_db clinic_patient).
  - vm_compute. reflexivity.
  - reflexivity.
  - vm_compute. reflexivity.
Defined.

Lemma generate_patient_id_fresh_witness :
  In "ZZ99YY88" ["AB12CD34"; "ZZ99YY88"] /\
  forall u, In u [clinic_doctor; clinic_patient] -> usr_patient_id u <> Some "ZZ99YY88".
Proof.
  apply (generate_patient_id_fresh ["AB12CD34"; "ZZ99YY88"] [clinic_doctor; clinic_patient]).
  vm_compute. reflexivity.
Defined.

Lemma save_new_patient_gets_fresh_id_witness :
  save_new_user ["AB12CD34"; "ZZ99YY88"] [clinic_doctor; clinic_patient]
      (mkUser 3 "pat2" "patient" None)
    = Saved (app [clinic_doctor; clinic_patient] [mkUser 3 "pat2" "patient" (Some "ZZ99YY88")]) /\
  forall v, In v [clinic_doctor; clinic_patient] -> usr_patient_id v <> Some "ZZ99YY88".
Proof.
  apply (save_new_patient_gets_fresh_id ["AB12CD34"; "ZZ99YY88"] [clinic_doctor; clinic_patient]
           (mkUser 3 "pat2" "patient" None) "ZZ99YY88").
  - reflexivity.
  - left. reflexivity.
  - vm_compute. reflexivity.
Defined.

Lemma save_new_user_keeps_ids_unique_witness :
  NoDup (patient_ids (app [clinic_doctor; clinic_patient] [mkUser 3 "pat2" "patient" (Some "ZZ99YY88")])).
Proof.
  apply (save_new_user_keeps_ids_unique ["AB12CD34"; "ZZ99YY88"] [clinic_doctor; clinic_patient]
           (mkUser 3 "pat2" "patient" None)).
  - vm_compute. constructor; [intros []|constructor].
  - vm_compute. reflexivity.
Defined.

Lemma create_for_patient_then_listed_witness :
  In (mkNote 2 (usr_id clinic_doctor) "Keep going" true)
     (note_queryset clinic_doctor
        (mkClinicDB (db_users clinic_db_assigned) (db_assignments clinic_db_assigned)
           [mkNote 2 1 "Keep going" true])) /\
  (In (mkNote 2 (usr_id clinic_doctor) "Keep going" true)
      (note_queryset clinic_patient
         (mkClinicDB (db_users clinic_db_assigned) (db_assignments clinic_db_assigned)
            [mkNote 2 1 "Keep going" true])) <-> true = true).
Proof.
  apply (create_for_patient_then_listed clinic_doctor 2 "Keep going" true clinic_db_assigned
           "Keep going" _ clinic_patient).
  - vm_compute. reflexivity.
  - reflexivity.
  - discriminate.
Defined.
